(** * cmd/generate.go: the generation pipeline of acs-engine

    A shallow embedding of [src/cmd/generate.go]: the loader
    ([NewGenerator], [getContService]), the override merge, the validator
    ([validatef], [validate]) and the command entry point, over an explicit
    file system and an explicit log of the external calls made.

    Go strings are byte sequences and are embedded as [string]; a [[]byte]
    is a [list byte]; a pointer that may be nil is an [option]; a nil
    dereference is the outcome [Panic].  The receiver [gc] and the
    argument [conf] are taken to be non-nil. *)

From Stdlib Require Import Strings.String Strings.Ascii Strings.Byte Lists.List Bool Arith Lia.
Import ListNotations.
Open Scope string_scope.

Set Implicit Arguments.

(* ================================================================== *)
(** ** Go standard library: strings *)

Module GoStrings.

(** [drop n s] is the Go slice [s[n:]] (for [n <= len(s)]). *)
Fixpoint drop (n : nat) (s : string) : string :=
  match n, s with
  | O, _ => s
  | S _, EmptyString => EmptyString
  | S k, String _ s' => drop k s'
  end.

(** [replace_from old new skip s]: the scan of [strings.Replace(s, old,
    new, -1)] for a non-empty [old].  [skip] counts the bytes of a match
    that are still to be jumped over; at [skip = 0] the scanner looks for
    [old] at the current position, leftmost match first, matches never
    overlapping. *)
Fixpoint replace_from (old new : string) (skip : nat) (s : string) : string :=
  match s with
  | EmptyString => EmptyString
  | String c s' =>
      match skip with
      | S k => replace_from old new k s'
      | O =>
          if prefix old s
          then new ++ replace_from old new (String.length old - 1) s'
          else String c (replace_from old new 0 s')
      end
  end.

(** [strings.Replace(s, old, new, -1)], [old] non-empty. *)
Definition ReplaceAll (s old new : string) : string :=
  replace_from old new 0 s.

(** [strings.Contains(s, sub)] as a proposition. *)
Definition occurs (sub s : string) : Prop :=
  exists pre post, s = pre ++ sub ++ post.

(** [strings.Contains(s, sub)], executable. *)
Fixpoint Contains (s sub : string) : bool :=
  prefix sub s ||
  match s with
  | EmptyString => false
  | String _ s' => Contains s' sub
  end.

(** [strings.Join(elems, sep)]. *)
Definition Join (elems : list string) (sep : string) : string :=
  String.concat sep elems.

End GoStrings.

(* ================================================================== *)
(** ** Go standard library: path *)

Module GoPath.

Definition slash : ascii := "/"%char.

(** The elements of a path: the pieces between slashes
    ([strings.Split(p, "/")]). *)
Fixpoint elements (p : string) : list string :=
  match p with
  | EmptyString => [EmptyString]
  | String c p' =>
      if Ascii.eqb c slash then EmptyString :: elements p'
      else match elements p' with
           | e :: es => String c e :: es
           | [] => [String c EmptyString]
           end
  end.

(** One element processed by [path.Clean]; [out] is the output so far,
    last element first.  Empty elements and [.] are dropped; [..] removes
    the preceding real element, is dropped at the root of a rooted path,
    and is kept at the front of a relative one. *)
Definition clean_step (rooted : bool) (out : list string) (e : string)
  : list string :=
  if String.eqb e "" || String.eqb e "." then out
  else if String.eqb e ".." then
    match out with
    | top :: below => if String.eqb top ".." then e :: out else below
    | [] => if rooted then [] else [e]
    end
  else e :: out.

(** [path.Clean]: the shortest path equivalent to [p] by purely lexical
    processing; the empty path cleans to ["."]. *)
Definition Clean (p : string) : string :=
  match p with
  | EmptyString => "."
  | String c _ =>
      let rooted := Ascii.eqb c slash in
      let out := fold_left (clean_step rooted) (elements p) [] in
      let body := String.concat "/" (rev out) in
      if rooted then "/" ++ body
      else if String.eqb body "" then "." else body
  end.

(** [path.Join]: leading empty elements are ignored, the rest is joined
    with slashes and cleaned; all-empty joins to the empty string. *)
Fixpoint Join (elem : list string) : string :=
  match elem with
  | [] => ""
  | e :: rest =>
      if String.eqb e "" then Join rest
      else Clean (String.concat "/" elem)
  end.

Definition no_slash (e : string) : bool :=
  forallb (fun c => negb (Ascii.eqb c slash)) (list_ascii_of_string e).

(** A single ordinary path element: non-empty, without a slash, and
    neither [.] nor [..]. *)
Definition plain (e : string) : bool :=
  negb (String.eqb e "") && negb (String.eqb e ".")
  && negb (String.eqb e "..")
  && no_slash e.

End GoPath.

(* ================================================================== *)
(** ** Types of package api *)

Module api.

(** Modelled from the spec: the remaining fields of a [pkg/api] struct, by
    JSON name and value; [generate.go] never reads or writes them. *)
Definition Other := list (string * string).

Module ServicePrincipalProfile.
(** Modelled from the spec: [api.ServicePrincipalProfile], the
    service-principal identity (client id and secret). *)
Record t := mk { ClientID : string; Secret : string; other : Other }.
End ServicePrincipalProfile.

Module MasterProfile.
(** Modelled from the spec: [api.MasterProfile], the managed master
    profile; it carries a DNS prefix. *)
Record t := mk { DNSPrefix : string; other : Other }.
Definition set_DNSPrefix (v : string) (x : t) : t := mk v (other x).
End MasterProfile.

Module HostedMasterProfile.
(** Modelled from the spec: [api.HostedMasterProfile], the hosted master
    profile; it carries its own DNS prefix. *)
Record t := mk { DNSPrefix : string; other : Other }.
End HostedMasterProfile.

Module PublicKey.
(** Modelled from the spec: [api.PublicKey], one SSH public key. *)
Record t := mk { KeyData : string }.
End PublicKey.

Module SSH.
(** Modelled from the spec: the [SSH] member of [api.LinuxProfile]. *)
Record t := mk { PublicKeys : list PublicKey.t }.
End SSH.

Module LinuxProfile.
(** Modelled from the spec: [api.LinuxProfile], which holds the SSH public
    key material. *)
Record t := mk { SSH : SSH.t; other : Other }.
Definition set_SSH_PublicKeys (v : list PublicKey.t) (x : t) : t :=
  mk (SSH.mk v) (other x).
End LinuxProfile.

Module CertificateProfile.
(** Modelled from the spec: [api.CertificateProfile], which holds the CA
    certificate and the CA private key. *)
Record t := mk { CaCertificate : string; CaPrivateKey : string;
                 other : Other }.
(** [api.CertificateProfile{}] *)
Definition zero : t := mk "" "" [].
Definition set_CaCertificate (v : string) (x : t) : t :=
  mk v (CaPrivateKey x) (other x).
Definition set_CaPrivateKey (v : string) (x : t) : t :=
  mk (CaCertificate x) v (other x).
End CertificateProfile.

Module Properties.
(** Modelled from the spec: [api.Properties].  Its profiles are pointers:
    [validatef] compares [MasterProfile] and [CertificateProfile] with
    [nil] and assigns a [*api.CertificateProfile], and [NewGenerator]
    assigns a [*api.ServicePrincipalProfile]. *)
Record t := mk {
  ServicePrincipalProfile : option ServicePrincipalProfile.t;
  MasterProfile : option MasterProfile.t;
  HostedMasterProfile : option HostedMasterProfile.t;
  LinuxProfile : option LinuxProfile.t;
  CertificateProfile : option CertificateProfile.t;
  other : Other }.
Definition zero : t := mk None None None None None [].
Definition set_ServicePrincipalProfile v (x : t) : t :=
  mk v (MasterProfile x) (HostedMasterProfile x) (LinuxProfile x)
     (CertificateProfile x) (other x).
Definition set_MasterProfile v (x : t) : t :=
  mk (ServicePrincipalProfile x) v (HostedMasterProfile x)
     (LinuxProfile x) (CertificateProfile x) (other x).
Definition set_LinuxProfile v (x : t) : t :=
  mk (ServicePrincipalProfile x) (MasterProfile x)
     (HostedMasterProfile x) v (CertificateProfile x) (other x).
Definition set_CertificateProfile v (x : t) : t :=
  mk (ServicePrincipalProfile x) (MasterProfile x)
     (HostedMasterProfile x) (LinuxProfile x) v (other x).
End Properties.

Module ContainerService.
(** Modelled from the spec: [api.ContainerService]; [Properties] is a
    pointer, through which [validatef] writes the certificate profile. *)
Record t := mk { Properties : option Properties.t; other : Other }.
Definition set_Properties v (x : t) : t := mk v (other x).
End ContainerService.

End api.

(* ================================================================== *)
(** ** Errors, the file system, and the log of external calls *)

Inductive errno : Type :=
| ENOENT
| Errno (msg : string).

(** A Go [error]: an [*os.PathError] or an opaque error with a message. *)
Inductive error : Type :=
| PathError (op path : string) (e : errno)
| errorString (s : string).

Definition errno_string (e : errno) : string :=
  match e with
  | ENOENT => "no such file or directory"
  | Errno msg => msg
  end.

(** [err.Error()] *)
Definition Error (e : error) : string :=
  match e with
  | PathError op path en => op ++ " " ++ path ++ ": " ++ errno_string en
  | errorString s => s
  end.

(** [errors.New] *)
Definition errors_New (s : string) : error := errorString s.

(** [os.IsNotExist]; [None] is the nil error. *)
Definition os_IsNotExist (err : option error) : bool :=
  match err with
  | Some (PathError _ _ ENOENT) => true
  | _ => false
  end.

(** A Go pair [(value, err)] with a non-nil [err], or a value. *)
Inductive res (A : Type) : Type :=
| Val (a : A)
| Fail (e : error).
Arguments Val {A} a.
Arguments Fail {A} e.

(** What a path names on disk. *)
Inductive file_state : Type :=
| Absent
| OpenFails (msg : string)
| ReadFails (msg : string)
| Regular (content : list byte).

Definition FileSystem := string -> file_state.

(** [os.Stat]: only the error is used by the callers. *)
Definition os_Stat (fs : FileSystem) (p : string) : option error :=
  match fs p with
  | Absent => Some (PathError "stat" p ENOENT)
  | _ => None
  end.

(** [os.Open]: the open file is represented by its path. *)
Definition os_Open (fs : FileSystem) (p : string) : res string :=
  match fs p with
  | Absent => Fail (PathError "open" p ENOENT)
  | OpenFails msg => Fail (PathError "open" p (Errno msg))
  | _ => Val p
  end.

(** [ioutil.ReadAll] on a file opened by [os_Open]. *)
Definition ioutil_ReadAll (fs : FileSystem) (f : string) : res (list byte) :=
  match fs f with
  | Regular content => Val content
  | ReadFails msg => Fail (PathError "read" f (Errno msg))
  | Absent => Fail (PathError "read" f ENOENT)
  | OpenFails msg => Fail (PathError "read" f (Errno msg))
  end.

(** [ioutil.ReadFile] *)
Definition ioutil_ReadFile (fs : FileSystem) (p : string) : res (list byte) :=
  match os_Open fs p with
  | Fail e => Fail e
  | Val f => ioutil_ReadAll fs f
  end.

(** The external calls a run makes, in order. *)
Inductive event : Type :=
| EvOpen (p : string)
| EvReadAll (p : string)
| EvClose (p : string)
| EvStat (p : string)
| EvReadFile (p : string)
| EvUnmarshal (data : list byte)
| EvMarshal
| EvDeserialize (data : list byte)
| EvLoadTranslations
| EvUsage
| EvRun.

(** Events of deserialization: [json.Unmarshal] and the api loader. *)
Definition is_deserialization (e : event) : bool :=
  match e with
  | EvUnmarshal _ | EvDeserialize _ => true
  | _ => false
  end.

(** How a Go call ends: it returns, it panics (nil dereference), or the
    process exits through [log.Fatalf]. *)
Inductive exec (A : Type) : Type :=
| Done (a : A)
| Panic
| Fatal (msg : string).
Arguments Done {A} a.
Arguments Panic {A}.
Arguments Fatal {A} msg.

(** A computation: the log of its external calls and how it ends. *)
Definition M (A : Type) : Type := (list event * exec A)%type.

Definition ret {A} (a : A) : M A := ([], Done a).

Definition bind {A B} (m : M A) (f : A -> M B) : M B :=
  match m with
  | (t, Done a) => let (t', r) := f a in ((t ++ t')%list, r)
  | (t, Panic) => (t, Panic)
  | (t, Fatal msg) => (t, Fatal msg)
  end.

Definition tell (e : event) : M unit := ([e], Done tt).

(** Dereference of a pointer: nil panics. *)
Definition deref {A} (p : option A) : M A :=
  match p with
  | Some a => ret a
  | None => ([], Panic)
  end.

(** [defer]: the deferred call is logged however the body ends. *)
Definition defer {A} (e : event) (body : M A) : M A :=
  let (t, r) := body in ((t ++ [e])%list, r).

Notation "x <- m ;; k" := (bind m (fun x => k))
  (at level 61, m at next level, right associativity).
Notation "m ;;; k" := (bind m (fun _ => k))
  (at level 61, right associativity).

Definition trace {A} (m : M A) : list event := fst m.
Definition outcome {A} (m : M A) : exec A := snd m.

(* ================================================================== *)
(** ** The collaborators outside this package *)

(** [*gotext.Locale], opaque. *)
Definition Locale := string.

(** [cobra.Command], opaque: only [cmd != nil] and [cmd.Usage()] are used. *)
Definition Command := unit.

(** [type Model struct] *)
Record Model := mkModel {
  APIVersion : string;
  Props : api.Properties.t }.

Definition set_Props (v : api.Properties.t) (m : Model) : Model :=
  mkModel (APIVersion m) v.

(** [type GenConf struct] *)
Record GenConf := mkGenConf {
  ApiConfPath : string;
  OutDir : string;
  Name : string;
  SSHKey : string;
  CliProfile : option api.ServicePrincipalProfile.t }.

(** [type generateCmd struct] *)
Record generateCmd := mkGenerateCmd {
  apimodelPath : string;
  outputDirectory : string;
  caCertificatePath : string;
  caPrivateKeyPath : string;
  classicMode : bool;
  noPrettyPrint : bool;
  parametersOnly : bool;
  containerService : option api.ContainerService.t;
  apiVersion : string;
  locale : option Locale }.

(** [generateCmd{}] *)
Definition generateCmd_zero : generateCmd :=
  mkGenerateCmd "" "" "" "" false false false None "" None.

Definition set_apimodelPath (v : string) (gc : generateCmd) : generateCmd :=
  mkGenerateCmd v (outputDirectory gc) (caCertificatePath gc)
    (caPrivateKeyPath gc) (classicMode gc) (noPrettyPrint gc)
    (parametersOnly gc) (containerService gc) (apiVersion gc) (locale gc).

Definition set_outputDirectory (v : string) (gc : generateCmd) : generateCmd :=
  mkGenerateCmd (apimodelPath gc) v (caCertificatePath gc)
    (caPrivateKeyPath gc) (classicMode gc) (noPrettyPrint gc)
    (parametersOnly gc) (containerService gc) (apiVersion gc) (locale gc).

Definition set_containerService (v : option api.ContainerService.t)
  (gc : generateCmd) : generateCmd :=
  mkGenerateCmd (apimodelPath gc) (outputDirectory gc) (caCertificatePath gc)
    (caPrivateKeyPath gc) (classicMode gc) (noPrettyPrint gc)
    (parametersOnly gc) v (apiVersion gc) (locale gc).

Definition set_apiVersion (v : string) (gc : generateCmd) : generateCmd :=
  mkGenerateCmd (apimodelPath gc) (outputDirectory gc) (caCertificatePath gc)
    (caPrivateKeyPath gc) (classicMode gc) (noPrettyPrint gc)
    (parametersOnly gc) (containerService gc) v (locale gc).

Definition set_locale (v : option Locale) (gc : generateCmd) : generateCmd :=
  mkGenerateCmd (apimodelPath gc) (outputDirectory gc) (caCertificatePath gc)
    (caPrivateKeyPath gc) (classicMode gc) (noPrettyPrint gc)
    (parametersOnly gc) (containerService gc) (apiVersion gc) v.

(** The world a run executes in: the disk and the functions of other
    packages.
    - [fmt_Sprintf0 f] is [fmt.Sprintf(f)], a format string printed with no
      operands (the identity on strings without a percent sign);
    - [json_Unmarshal data] is [json.Unmarshal(data, &Model{})];
    - [DeserializeContainerService locale data] is the api loader's
      [DeserializeContainerService(data, true, nil)]: the container
      service, the api version and the error it returns;
    - [LoadTranslations] is [i18n.LoadTranslations()];
    - [engine gc] stands for the template generator, the pretty printer and
      the artifact writer that [run] calls: [Some msg] when one of them
      fails and [run] ends in [log.Fatalf]. *)
Record Env := mkEnv {
  fs : FileSystem;
  fmt_Sprintf0 : string -> string;
  json_Unmarshal : list byte -> res Model;
  json_Marshal : Model -> res (list byte);
  DeserializeContainerService :
    option Locale -> list byte ->
    option api.ContainerService.t * string * option error;
  LoadTranslations : option Locale * option error;
  engine : generateCmd -> option string }.

(** [fmt.Errorf(fmt.Sprintf(prefix + "%s", arg))]: [%s] splices the string
    operand in, and the result is then used as a format string. *)
Definition fmt_Errorf (env : Env) (s : string) : error :=
  errorString (fmt_Sprintf0 env s).

(* ================================================================== *)
(** ** generate.go *)

Definition dquote : string := String "034"%char EmptyString.

(** The pattern literal of [getContService], line 124: the key [subnet]
    in double quotes, a colon, an empty string in double quotes and a
    comma; twelve bytes. *)
Definition emptySubnet : string :=
  Eval cbv in (dquote ++ "subnet" ++ dquote ++ ":" ++ dquote ++ dquote ++ ",").

(** The cleanup of the serialized model, line 124:
    [strings.Replace(string(contents), emptySubnet, empty, -1)]. *)
Definition cleanup (contents : string) : string :=
  GoStrings.ReplaceAll contents emptySubnet "".

(** [func (gc *generateCmd) getContService(m *Model) error]; the receiver
    is returned with the error. *)
Definition getContService (env : Env) (gc : generateCmd) (m : Model)
  : M (generateCmd * option error) :=
  tell EvMarshal ;;;
  match json_Marshal env m with
  | Fail err => ret (gc, Some err)
  | Val contents =>
      let scont := cleanup (string_of_list_byte contents) in
      let data := list_byte_of_string scont in
      tell (EvDeserialize data) ;;;
      let '(cs, ver, err) := DeserializeContainerService env (locale gc) data in
      let gc := set_apiVersion ver (set_containerService cs gc) in
      match err with
      | Some e =>
          ret (gc, Some (fmt_Errorf env
                           ("error parsing the api model: " ++ Error e)))
      | None => ret (gc, None)
      end
  end.

(** The override merge of [NewGenerator], lines 69 to 71:
    [model.Props.ServicePrincipalProfile = conf.CliProfile]
    [model.Props.MasterProfile.DNSPrefix = conf.Name]
    [model.Props.LinuxProfile.SSH.PublicKeys = []api.PublicKey{{KeyData: conf.SSHKey}}] *)
Definition applyOverrides (conf : GenConf) (model : Model) : M Model :=
  let props := api.Properties.set_ServicePrincipalProfile
                 (CliProfile conf) (Props model) in
  mp <- deref (api.Properties.MasterProfile props) ;;
  let props := api.Properties.set_MasterProfile
                 (Some (api.MasterProfile.set_DNSPrefix (Name conf) mp))
                 props in
  lp <- deref (api.Properties.LinuxProfile props) ;;
  let props := api.Properties.set_LinuxProfile
                 (Some (api.LinuxProfile.set_SSH_PublicKeys
                          [api.PublicKey.mk (SSHKey conf)] lp))
                 props in
  ret (set_Props props model).

(** [func NewGenerator]: from a [*GenConf] to a [*generateCmd] and an
    [error]. *)
Definition NewGenerator (env : Env) (conf : GenConf) : M (res generateCmd) :=
  tell (EvOpen (ApiConfPath conf)) ;;;
  match os_Open (fs env) (ApiConfPath conf) with
  | Fail err => ret (Fail err)
  | Val f =>
      defer (EvClose f)
        (tell (EvReadAll f) ;;;
         match ioutil_ReadAll (fs env) f with
         | Fail err => ret (Fail err)
         | Val data =>
             tell (EvUnmarshal data) ;;;
             match json_Unmarshal env data with
             | Fail err => ret (Fail err)
             | Val model =>
                 model <- applyOverrides conf model ;;
                 let gen := set_outputDirectory (OutDir conf)
                              (set_apimodelPath (ApiConfPath conf)
                                 generateCmd_zero) in
                 r <- getContService env gen model ;;
                 match r with
                 | (_, Some err) => ret (Fail err)
                 | (gen, None) => ret (Val gen)
                 end
             end
         end)
  end.

(** The default root of the output directory. *)
Definition outputRoot : string := "_output".

(** Lines 144 to 150 of [validatef]: the output directory, when not given. *)
Definition resolveOutputDirectory (gc : generateCmd) : M generateCmd :=
  if String.eqb (outputDirectory gc) "" then
    cs <- deref (containerService gc) ;;
    props <- deref (api.ContainerService.Properties cs) ;;
    match api.Properties.MasterProfile props with
    | Some mp =>
        ret (set_outputDirectory
               (GoPath.Join [outputRoot; api.MasterProfile.DNSPrefix mp]) gc)
    | None =>
        hp <- deref (api.Properties.HostedMasterProfile props) ;;
        ret (set_outputDirectory
               (GoPath.Join [outputRoot; api.HostedMasterProfile.DNSPrefix hp])
               gc)
    end
  else ret gc.

Definition caPairingMessage : string :=
  "--ca-certificate-path and --ca-private-key-path must be specified together".

(** Lines 154 to 172 of [validatef]: the CA certificate and key. *)
Definition consumeCA (env : Env) (gc : generateCmd)
  : M (generateCmd * option error) :=
  let cert := caCertificatePath gc in
  let key := caPrivateKeyPath gc in
  if (negb (String.eqb cert "") && String.eqb key "")
     || (String.eqb cert "" && negb (String.eqb key ""))
  then ret (gc, Some (errors_New caPairingMessage))
  else if negb (String.eqb cert "") then
    tell (EvReadFile cert) ;;;
    match ioutil_ReadFile (fs env) cert with
    | Fail err =>
        ret (gc, Some (fmt_Errorf env
                         ("failed to read CA certificate file: " ++ Error err)))
    | Val caCertificateBytes =>
        tell (EvReadFile key) ;;;
        match ioutil_ReadFile (fs env) key with
        | Fail err =>
            ret (gc, Some (fmt_Errorf env
                             ("failed to read CA private key file: "
                              ++ Error err)))
        | Val caKeyBytes =>
            cs <- deref (containerService gc) ;;
            prop <- deref (api.ContainerService.Properties cs) ;;
            let cp := match api.Properties.CertificateProfile prop with
                      | None => api.CertificateProfile.zero
                      | Some cp => cp
                      end in
            let cp := api.CertificateProfile.set_CaCertificate
                        (string_of_list_byte caCertificateBytes) cp in
            let cp := api.CertificateProfile.set_CaPrivateKey
                        (string_of_list_byte caKeyBytes) cp in
            let prop := api.Properties.set_CertificateProfile (Some cp) prop in
            ret (set_containerService
                   (Some (api.ContainerService.set_Properties (Some prop) cs))
                   gc, None)
        end
    end
  else ret (gc, None).

(** [func (gc *generateCmd) validatef() error]; the receiver is returned
    with the error. *)
Definition validatef (env : Env) (gc : generateCmd)
  : M (generateCmd * option error) :=
  tell (EvStat (apimodelPath gc)) ;;;
  if os_IsNotExist (os_Stat (fs env) (apimodelPath gc)) then
    ret (gc, Some (fmt_Errorf env
                     ("specified api model does not exist ("
                      ++ apimodelPath gc ++ ")")))
  else
    gc <- resolveOutputDirectory gc ;;
    consumeCA env gc.

(** [func (gc *generateCmd) validate(cmd *cobra.Command, args []string) error] *)
Definition validate (env : Env) (gc : generateCmd) (cmd : option Command)
  (args : list string) : M (generateCmd * option error) :=
  tell EvLoadTranslations ;;;
  let '(loc, err) := LoadTranslations env in
  let gc := set_locale loc gc in
  match err with
  | Some e =>
      ret (gc, Some (fmt_Errorf env
                       ("error loading translation files: " ++ Error e)))
  | None =>
      let usage := match cmd with
                   | Some _ => tell EvUsage
                   | None => ret tt
                   end in
      if String.eqb (apimodelPath gc) "" then
        match args with
        | [a] => validatef env (set_apimodelPath a gc)
        | _ :: _ :: _ =>
            usage ;;;
            ret (gc, Some (errors_New
                   "too many arguments were provided to 'generate'"))
        | [] =>
            usage ;;;
            ret (gc, Some (errors_New
                   "--api-model was not supplied, nor was one specified as a positional argument"))
        end
      else validatef env gc
  end.

(** [func (gc *generateCmd) run() error]: the engine, the pretty printer
    and the artifact writer are outside this package; any failure of theirs
    ends in [log.Fatalf]. *)
Definition run (env : Env) (gc : generateCmd) : M (option error) :=
  tell EvRun ;;;
  match engine env gc with
  | Some msg => ([], Fatal msg)
  | None => ret None
  end.

(** [func (gc *generateCmd) Generate() error] *)
Definition Generate (env : Env) (gc : generateCmd) : M (option error) :=
  r <- validatef env gc ;;
  match r with
  | (_, Some err) => ret (Some err)
  | (gc, None) => run env gc
  end.

(** The command line: the flags of [newGenerateCmd], bound to the fields of
    a zero [generateCmd]. *)
Record Flags := mkFlags {
  flag_api_model : string;
  flag_output_directory : string;
  flag_ca_certificate_path : string;
  flag_ca_private_key_path : string;
  flag_classic_mode : bool;
  flag_no_pretty_print : bool;
  flag_parameters_only : bool }.

(** [gc := generateCmd{}] of [newGenerateCmd], after flag parsing. *)
Definition flagCmd (f : Flags) : generateCmd :=
  mkGenerateCmd (flag_api_model f) (flag_output_directory f)
    (flag_ca_certificate_path f) (flag_ca_private_key_path f)
    (flag_classic_mode f) (flag_no_pretty_print f) (flag_parameters_only f)
    None "" None.

(** The [RunE] closure of [newGenerateCmd]. *)
Definition RunE (env : Env) (f : Flags) (args : list string)
  : M (option error) :=
  r <- validate env (flagCmd f) (Some tt) args ;;
  match r with
  | (_, Some err) =>
      ([], Fatal (fmt_Sprintf0 env
                    ("error validating generateCmd: " ++ Error err)))
  | (gc, None) => run env gc
  end.

(* ================================================================== *)
(** ** Vocabulary of the statements *)

(** The errors the CA step of [validatef] can return. *)
Definition ca_error (env : Env) (gc : generateCmd) (e : error) : Prop :=
  e = errors_New caPairingMessage
  \/ (exists err,
        ioutil_ReadFile (fs env) (caCertificatePath gc) = Fail err /\
        e = fmt_Errorf env
              ("failed to read CA certificate file: " ++ Error err))
  \/ (exists err,
        ioutil_ReadFile (fs env) (caPrivateKeyPath gc) = Fail err /\
        e = fmt_Errorf env
              ("failed to read CA private key file: " ++ Error err)).

(** The certificate profile of the loaded model, when there is one. *)
Definition certificateProfile (gc : generateCmd)
  : option api.CertificateProfile.t :=
  match containerService gc with
  | Some cs =>
      match api.ContainerService.Properties cs with
      | Some prop => api.Properties.CertificateProfile prop
      | None => None
      end
  | None => None
  end.

(** Exactly one of the two CA paths is set. *)
Definition unpaired (gc : generateCmd) : Prop :=
  (caCertificatePath gc <> "" /\ caPrivateKeyPath gc = "")
  \/ (caCertificatePath gc = "" /\ caPrivateKeyPath gc <> "").

(** No event of the log is a deserialization. *)
Definition no_deserialization (t : list event) : bool :=
  forallb (fun e => negb (is_deserialization e)) t.

(** The certificate profile [validatef] leaves behind: the old one, or a
    fresh one, with the two CA fields set. *)
Definition withCA (old : option api.CertificateProfile.t)
  (cert key : list byte) : api.CertificateProfile.t :=
  api.CertificateProfile.set_CaPrivateKey (string_of_list_byte key)
    (api.CertificateProfile.set_CaCertificate (string_of_list_byte cert)
       (match old with
        | None => api.CertificateProfile.zero
        | Some cp => cp
        end)).

(** What the override merge makes of a model whose managed master profile
    is [mp] and whose linux profile is [lp]. *)
Definition merged (conf : GenConf) (m : Model)
  (mp : api.MasterProfile.t) (lp : api.LinuxProfile.t) : Model :=
  mkModel (APIVersion m)
    (api.Properties.mk
       (CliProfile conf)
       (Some (api.MasterProfile.mk (Name conf) (api.MasterProfile.other mp)))
       (api.Properties.HostedMasterProfile (Props m))
       (Some (api.LinuxProfile.mk
                (api.SSH.mk [api.PublicKey.mk (SSHKey conf)])
                (api.LinuxProfile.other lp)))
       (api.Properties.CertificateProfile (Props m))
       (api.Properties.other (Props m))).

(* ================================================================== *)
(** ** Sample worlds *)

Module Sample.

(** A disk with two cluster definitions, a CA pair and an unreadable
    key. *)
Definition disk : FileSystem := fun p =>
  if String.eqb p "cluster.json" then Regular (list_byte_of_string "managed")
  else if String.eqb p "hosted.json" then Regular (list_byte_of_string "hosted")
  else if String.eqb p "ca.crt" then Regular (list_byte_of_string "CERT")
  else if String.eqb p "ca.key" then Regular (list_byte_of_string "KEY")
  else if String.eqb p "locked.key" then OpenFails "permission denied"
  else Absent.

Definition linux : api.LinuxProfile.t :=
  api.LinuxProfile.mk
    (api.SSH.mk [api.PublicKey.mk "ssh-rsa DOC"])
    [("adminUsername", "azureuser")].

(** A definition with a managed master profile. *)
Definition managedProps : api.Properties.t :=
  api.Properties.mk None
    (Some (api.MasterProfile.mk "docprefix" [("count", "1")]))
    None (Some linux) None [].

(** A definition with a hosted master profile only. *)
Definition hostedProps : api.Properties.t :=
  api.Properties.mk None None
    (Some (api.HostedMasterProfile.mk "aks" []))
    (Some linux) None [].

(** A hosted master profile with an empty DNS prefix. *)
Definition emptyPrefixProps : api.Properties.t :=
  api.Properties.mk None None
    (Some (api.HostedMasterProfile.mk "" []))
    (Some linux) None [].

(** Neither master profile. *)
Definition bareProps : api.Properties.t :=
  api.Properties.mk None None None (Some linux) None [].

Definition unmarshal (data : list byte) : res Model :=
  if String.eqb (string_of_list_byte data) "hosted"
  then Val (mkModel "vlabs" hostedProps)
  else Val (mkModel "vlabs" managedProps).

Definition marshal (m : Model) : res (list byte) :=
  Val (list_byte_of_string ("{" ++ emptySubnet ++ "}")).

Definition deserialize (loc : option Locale) (data : list byte)
  : option api.ContainerService.t * string * option error :=
  (Some (api.ContainerService.mk (Some managedProps) []), "vlabs", None).

Definition world : Env :=
  mkEnv disk (fun s => s) unmarshal marshal deserialize
    (Some "en_US", None) (fun _ => None).

(** A command whose model is loaded with the given properties. *)
Definition loaded (props : api.Properties.t) (outdir cert key : string)
  : generateCmd :=
  mkGenerateCmd "cluster.json" outdir cert key false false false
    (Some (api.ContainerService.mk (Some props) [])) "vlabs" None.

Definition conf (path : string) : GenConf :=
  mkGenConf path "" "mycluster" "ssh-rsa CLI"
    (Some (api.ServicePrincipalProfile.mk "id" "secret" [])).

Definition flags (path outdir : string) : Flags :=
  mkFlags path outdir "" "" false false false.

End Sample.

(* ================================================================== *)
(** ** The body of run *)

Module Pipeline.

(** [acsengine.TemplateGenerator], opaque. *)
Definition TemplateGenerator := string.

(** What [run] hands to [WriteTLSArtifacts], with the locale of the
    writer's translator. *)
Record Artifacts := mkArtifacts {
  art_locale : option Locale;
  art_containerService : option api.ContainerService.t;
  art_apiVersion : string;
  art_template : string;
  art_parameters : string;
  art_outputDirectory : string;
  art_certsGenerated : bool;
  art_parametersOnly : bool }.

(** The functions of package acsengine that [run] calls.
    [GenerateTemplate tg cs code] receives the pointer
    [gc.containerService] and may write through it: it returns the
    container service as it is after the call, with the template, the
    parameters and the certs-generated flag, or an error. *)
Record Engine := mkEngine {
  DefaultGeneratorCode : string;
  InitializeTemplateGenerator : option Locale -> bool -> res TemplateGenerator;
  GenerateTemplate :
    TemplateGenerator -> option api.ContainerService.t -> string ->
    option api.ContainerService.t * res (string * string * bool);
  PrettyPrintArmTemplate : string -> res string;
  BuildAzureParametersFile : string -> res string;
  WriteTLSArtifacts : Artifacts -> option error }.

(** The calls [run] makes, in order. *)
Inductive call : Type :=
| Infoln (msg : string)
| CallInitialize (classicMode : bool)
| CallGenerate (cs : option api.ContainerService.t) (code : string)
| CallPrettyPrint (template : string)
| CallBuildParameters (parameters : string)
| CallWrite (a : Artifacts).

Definition is_write (c : call) : bool :=
  match c with
  | CallWrite _ => true
  | _ => false
  end.

Definition newline : string := String "010"%char EmptyString.

(** [func (gc *generateCmd) run() error], call by call.  Every failure ends
    the process: [log.Fatalln] prints its operands separated by a space
    (the verb in its first operand is not interpreted), [log.Fatalf]
    formats them. *)
Definition run (eng : Engine) (gc : generateCmd)
  : list call * exec (option error) :=
  let info := Infoln ("Generating assets into " ++ outputDirectory gc ++ "...") in
  let init := CallInitialize (classicMode gc) in
  match InitializeTemplateGenerator eng (locale gc) (classicMode gc) with
  | Fail err =>
      ([info; init],
       Fatal ("failed to initialize template generator: %s " ++ Error err))
  | Val templateGenerator =>
      let gen := CallGenerate (containerService gc) (DefaultGeneratorCode eng) in
      match GenerateTemplate eng templateGenerator (containerService gc)
              (DefaultGeneratorCode eng) with
      | (_, Fail err) =>
          ([info; init; gen],
           Fatal ("error generating template " ++ apimodelPath gc ++ ": "
                  ++ Error err))
      | (cs, Val (template, parameters, certsGenerated)) =>
          let write template parameters :=
            let a := mkArtifacts (locale gc) cs (apiVersion gc) template
                       parameters (outputDirectory gc) certsGenerated
                       (parametersOnly gc) in
            match WriteTLSArtifacts eng a with
            | Some err =>
                ([CallWrite a],
                 Fatal ("error writing artifacts: " ++ Error err ++ " "
                        ++ newline))
            | None => ([CallWrite a], Done None)
            end in
          if noPrettyPrint gc then
            let (t, r) := write template parameters in
            (([info; init; gen] ++ t)%list, r)
          else
            match PrettyPrintArmTemplate eng template with
            | Fail err =>
                ([info; init; gen; CallPrettyPrint template],
                 Fatal ("error pretty printing template: " ++ Error err
                        ++ " " ++ newline))
            | Val pretty =>
                match BuildAzureParametersFile eng parameters with
                | Fail err =>
                    ([info; init; gen; CallPrettyPrint template;
                      CallBuildParameters parameters],
                     Fatal ("error pretty printing template parameters: "
                            ++ Error err ++ " " ++ newline))
                | Val built =>
                    let (t, r) := write pretty built in
                    (([info; init; gen; CallPrettyPrint template;
                       CallBuildParameters parameters] ++ t)%list, r)
                end
            end
      end
  end.

(** The summary of an engine that [Env] carries: the message [run] dies
    with, if any. *)
Definition failure (eng : Engine) (gc : generateCmd) : option string :=
  match snd (run eng gc) with
  | Fatal msg => Some msg
  | _ => None
  end.

(** [func (gc *generateCmd) Generate() error], with the body of [run]:
    the log of validation, the calls of [run], and the result. *)
Definition Generate (env : Env) (eng : Engine) (gc : generateCmd)
  : list event * list call * exec (option error) :=
  match validatef env gc with
  | (t, Done (_, Some err)) => (t, [], Done (Some err))
  | (t, Done (gc, None)) => let (c, r) := run eng gc in (t, c, r)
  | (t, Panic) => (t, [], Panic)
  | (t, Fatal msg) => (t, [], Fatal msg)
  end.

End Pipeline.

(** [env] with the given engine summary. *)
Definition with_engine (e : generateCmd -> option string) (env : Env) : Env :=
  mkEnv (fs env) (fmt_Sprintf0 env) (json_Unmarshal env) (json_Marshal env)
    (DeserializeContainerService env) (LoadTranslations env) e.

(* ================================================================== *)
(** ** Vocabulary of the further statements *)

Definition is_open_or_close (e : event) : bool :=
  match e with
  | EvOpen _ | EvClose _ => true
  | _ => false
  end.

Definition is_run (e : event) : bool :=
  match e with
  | EvRun => true
  | _ => false
  end.

(** The api model of an invocation: the flag when it is set, else the
    single positional argument. *)
Definition names_api_model (f : Flags) (args : list string) (path : string)
  : Prop :=
  (flag_api_model f = path /\ path <> "")
  \/ (flag_api_model f = "" /\ args = [path]).

(** The checks [validate] makes before the output directory: the
    translations load, the api model is named, and it exists on disk. *)
Definition passes_earlier_checks (env : Env) (f : Flags)
  (args : list string) (path : string) : Prop :=
  snd (LoadTranslations env) = None /\
  names_api_model f args path /\
  fs env path <> Absent.


(** Two property records that agree on everything but the certificate
    profile. *)
Definition same_properties_but_certificate (p q : api.Properties.t) : Prop :=
  api.Properties.ServicePrincipalProfile q
  = api.Properties.ServicePrincipalProfile p /\
  api.Properties.MasterProfile q = api.Properties.MasterProfile p /\
  api.Properties.HostedMasterProfile q = api.Properties.HostedMasterProfile p /\
  api.Properties.LinuxProfile q = api.Properties.LinuxProfile p /\
  api.Properties.other q = api.Properties.other p.

(** Two models that agree on everything but the certificate profile. *)
Definition same_model_but_certificate
  (x y : option api.ContainerService.t) : Prop :=
  match x, y with
  | None, None => True
  | Some cs, Some cs' =>
      api.ContainerService.other cs' = api.ContainerService.other cs /\
      match api.ContainerService.Properties cs,
            api.ContainerService.Properties cs' with
      | None, None => True
      | Some p, Some q => same_properties_but_certificate p q
      | _, _ => False
      end
  | _, _ => False
  end.

(** The pattern split in two at [n], with a whole pattern in between. *)
Definition nested_pattern (n : nat) : string :=
  substring 0 n emptySubnet ++ emptySubnet
  ++ substring n (String.length emptySubnet - n) emptySubnet.

(* ================================================================== *)
(** ** Sample engines *)

Module SampleEngine.

(** An engine that returns fixed payloads and whose pretty printers wrap
    their input. *)
Definition engine (write : option error) : Pipeline.Engine :=
  Pipeline.mkEngine "acsengine"
    (fun _ _ => Val "generator")
    (fun _ cs _ => (cs, Val ("TEMPLATE", "PARAMETERS", true)))
    (fun t => Val ("pretty(" ++ t ++ ")"))
    (fun p => Val ("built(" ++ p ++ ")"))
    (fun _ => write).

(** The same engine with a template pretty printer that fails. *)
Definition uglyEngine : Pipeline.Engine :=
  Pipeline.mkEngine "acsengine"
    (fun _ _ => Val "generator")
    (fun _ cs _ => (cs, Val ("TEMPLATE", "PARAMETERS", true)))
    (fun t => Fail (errorString "bad template"))
    (fun p => Val ("built(" ++ p ++ ")"))
    (fun _ => None).

(** A loaded command with the no-pretty-print flag as given. *)
Definition command (noPretty : bool) : generateCmd :=
  mkGenerateCmd "cluster.json" "out" "" "" false noPretty false
    (Some (api.ContainerService.mk (Some Sample.managedProps) [])) "vlabs"
    None.

End SampleEngine.

(* ================================================================== *)
(** ** Facts about strings.Replace *)

Module GoStringsFacts.
Import GoStrings.

Lemma append_nil_r (s : string) : s ++ "" = s.
Proof. induction s; simpl; congruence. Qed.

Lemma append_assoc (a b c : string) : (a ++ b) ++ c = a ++ (b ++ c).
Proof. induction a; simpl; congruence. Qed.

Lemma length_append (a b : string) :
  String.length (a ++ b) = String.length a + String.length b.
Proof. induction a; simpl; congruence. Qed.

Lemma concat_cons (sep x : string) (xs : list string) :
  xs <> [] -> String.concat sep (x :: xs) = x ++ sep ++ String.concat sep xs.
Proof. destruct xs; [congruence | reflexivity]. Qed.

Lemma prefix_append (a b : string) : prefix a (a ++ b) = true.
Proof.
  induction a as [|c a IH]; simpl.
  - now destruct b.
  - destruct (ascii_dec c c); [exact IH | congruence].
Qed.

Lemma prefix_split (a s : string) :
  prefix a s = true -> s = a ++ drop (String.length a) s.
Proof.
  revert s; induction a as [|c a IH]; intros s H; simpl.
  - reflexivity.
  - destruct s as [|d s]; simpl in H; [discriminate|].
    destruct (ascii_dec c d); [|discriminate].
    subst d. simpl. f_equal. now apply IH.
Qed.

Lemma prefix_weaken (a s t : string) :
  prefix a s = true -> prefix a (s ++ t) = true.
Proof.
  intros H. rewrite (prefix_split _ _ H), append_assoc.
  apply prefix_append.
Qed.

Lemma length_drop (n : nat) (s : string) :
  String.length (drop n s) = String.length s - n.
Proof.
  revert s; induction n as [|n IH]; intros [|c s]; simpl; auto.
Qed.

Lemma occurs_cons (sub : string) (c : ascii) (s : string) :
  occurs sub (String c s) ->
  prefix sub (String c s) = true \/ occurs sub s.
Proof.
  intros [pre [post E]]. destruct pre as [|d pre].
  - left. simpl in E. rewrite E. apply prefix_append.
  - right. simpl in E. injection E as _ E. now exists pre, post.
Qed.

Lemma occurs_prefix (sub s : string) :
  prefix sub s = true -> occurs sub s.
Proof.
  intros H. exists "", (drop (String.length sub) s). simpl.
  now apply prefix_split.
Qed.

Lemma occurs_tail (sub : string) (c : ascii) (s : string) :
  occurs sub s -> occurs sub (String c s).
Proof.
  intros [pre [post E]]. exists (String c pre), post. simpl. now f_equal.
Qed.

Lemma occurs_append_l (sub s t : string) :
  occurs sub s -> occurs sub (s ++ t).
Proof.
  intros [pre [post E]]. exists pre, (post ++ t).
  now rewrite E, !append_assoc.
Qed.

(** [Contains] decides [occurs]. *)
Lemma Contains_occurs (s sub : string) :
  Contains s sub = true <-> occurs sub s.
Proof.
  induction s as [|c s IH].
  - cbn [Contains]. rewrite orb_false_r. split.
    + apply occurs_prefix.
    + intros [pre [post E]].
      destruct pre; [|discriminate]. simpl in E.
      rewrite E. apply prefix_append.
  - cbn [Contains]. rewrite orb_true_iff, IH. split.
    + intros [H|H]; [now apply occurs_prefix | now apply occurs_tail].
    + apply occurs_cons.
Qed.

Lemma not_Contains_occurs (s sub : string) :
  Contains s sub = false -> ~ occurs sub s.
Proof.
  intros H O. apply Contains_occurs in O. congruence.
Qed.

Section Replace.
Variables old new : string.

Lemma replace_from_skip (k : nat) (s : string) :
  replace_from old new k s = replace_from old new 0 (drop k s).
Proof.
  revert k; induction s as [|c s IH]; intros [|k]; try reflexivity.
  simpl. apply IH.
Qed.

Lemma ReplaceAll_nil : ReplaceAll "" old new = "".
Proof. reflexivity. Qed.

Lemma ReplaceAll_match (s : string) :
  old <> "" -> prefix old s = true ->
  ReplaceAll s old new
  = new ++ ReplaceAll (drop (String.length old) s) old new.
Proof.
  intros Hne H. unfold ReplaceAll.
  destruct s as [|c s].
  - destruct old; [congruence | discriminate].
  - cbn [replace_from]. rewrite H, replace_from_skip.
    destruct old as [|o old']; [congruence|].
    simpl. now rewrite Nat.sub_0_r.
Qed.

Lemma ReplaceAll_step (c : ascii) (s : string) :
  prefix old (String c s) = false ->
  ReplaceAll (String c s) old new = String c (ReplaceAll s old new).
Proof.
  intros H. unfold ReplaceAll. cbn [replace_from]. now rewrite H.
Qed.

(** Without an occurrence of [old] nothing is replaced. *)
Lemma ReplaceAll_absent (s : string) :
  ~ occurs old s -> ReplaceAll s old new = s.
Proof.
  induction s as [|c s IH]; intros H; [reflexivity|].
  rewrite ReplaceAll_step.
  - f_equal. apply IH. intros O. apply H. now apply occurs_tail.
  - destruct (prefix old (String c s)) eqn:E; [|reflexivity].
    exfalso. apply H. now apply occurs_prefix.
Qed.

(** The input is a sequence of pieces free of [old], separated by
    [old]; the result is the same pieces separated by [new]. *)
Lemma ReplaceAll_pieces (s : string) :
  old <> "" ->
  exists pieces,
    pieces <> [] /\
    Forall (fun p => ~ occurs old p) pieces /\
    s = String.concat old pieces /\
    ReplaceAll s old new = String.concat new pieces.
Proof.
  intros Hne.
  remember (String.length s) as n eqn:Hn.
  revert s Hn. induction n as [n IH] using lt_wf_ind. intros s Hn.
  destruct s as [|c s].
  - exists [""]. repeat split; try discriminate.
    constructor; [|constructor].
    intros [pre [post E]]. destruct pre; [|discriminate].
    destruct old; [congruence | discriminate].
  - destruct (prefix old (String c s)) eqn:E.
    + set (rest := drop (String.length old) (String c s)).
      destruct (IH (String.length rest)) with (s := rest)
        as [ps [Hps [Hfree [Hs Hr]]]]; [|reflexivity|].
      { subst rest n. rewrite length_drop.
        destruct old; [congruence|]. simpl. lia. }
      exists ("" :: ps). repeat split; try discriminate.
      * constructor; [|exact Hfree].
        intros [pre [post E']]. destruct pre; [|discriminate].
        destruct old; [congruence | discriminate].
      * rewrite concat_cons by assumption. simpl append at 1.
        rewrite <- Hs. now apply prefix_split.
      * rewrite ReplaceAll_match by assumption. fold rest. rewrite Hr.
        now rewrite concat_cons by assumption.
    + destruct (IH (String.length s)) with (s := s)
        as [ps [Hps [Hfree [Hs Hr]]]]; [subst n; simpl; lia|reflexivity|].
      destruct ps as [|p ps]; [congruence|].
      exists (String c p :: ps). repeat split; try discriminate.
      * pose proof (Forall_inv Hfree) as Hp.
        pose proof (Forall_inv_tail Hfree) as Hrest.
        constructor; [|exact Hrest].
        intros O. apply occurs_cons in O. destruct O as [O|O]; [|now apply Hp].
        assert (prefix old (String c s) = true); [|congruence].
        rewrite Hs. destruct ps as [|q ps]; [exact O|].
        rewrite concat_cons by discriminate.
        change (String c (p ++ old ++ String.concat old (q :: ps)))
          with (String c p ++ (old ++ String.concat old (q :: ps))).
        now apply prefix_weaken.
      * rewrite Hs at 1. destruct ps; [reflexivity|].
        now rewrite !concat_cons by discriminate.
      * rewrite ReplaceAll_step by assumption. rewrite Hr.
        destruct ps; [reflexivity|].
        now rewrite !concat_cons by discriminate.
Qed.

End Replace.

End GoStringsFacts.

(* ================================================================== *)
(** ** Facts about path.Join *)

Module GoPathFacts.
Import GoPath.

Lemma append_comm_cons (c : ascii) (a b : string) :
  String c a ++ b = String c (a ++ b).
Proof. reflexivity. Qed.

Lemma elements_not_nil (p : string) : elements p <> [].
Proof.
  destruct p as [|c p]; simpl; [discriminate|].
  destruct (Ascii.eqb c slash); [discriminate|].
  destruct (elements p); discriminate.
Qed.

Lemma elements_no_slash (e : string) :
  no_slash e = true -> elements e = [e].
Proof.
  unfold no_slash. induction e as [|c e IH]; simpl; [reflexivity|].
  intros H. apply andb_prop in H. destruct H as [Hc He].
  apply negb_true_iff in Hc. rewrite Hc, (IH He). reflexivity.
Qed.

Lemma elements_append_slash (a b : string) :
  no_slash a = true ->
  elements (a ++ String slash b) = a :: elements b.
Proof.
  unfold no_slash. induction a as [|c a IH]; simpl; [reflexivity|].
  intros H. apply andb_prop in H. destruct H as [Hc Ha].
  apply negb_true_iff in Hc. rewrite Hc, (IH Ha). reflexivity.
Qed.

Lemma plain_parts (e : string) :
  plain e = true ->
  String.eqb e "" = false /\ String.eqb e "." = false /\
  String.eqb e ".." = false /\ no_slash e = true.
Proof.
  unfold plain, no_slash. intros H.
  repeat (apply andb_prop in H; destruct H as [H ?]).
  repeat split; try (now apply negb_true_iff); assumption.
Qed.

Lemma clean_step_plain (rooted : bool) (out : list string) (e : string) :
  plain e = true -> clean_step rooted out e = e :: out.
Proof.
  intros He. destruct (plain_parts _ He) as [E1 [E2 [E3 _]]].
  unfold clean_step. now rewrite E1, E2, E3.
Qed.

Lemma plain_not_rooted (c : ascii) (e : string) :
  plain (String c e) = true -> Ascii.eqb c slash = false.
Proof.
  intros H. destruct (plain_parts _ H) as [_ [_ [_ H4]]].
  unfold no_slash in H4. simpl in H4. apply andb_prop in H4.
  now apply negb_true_iff.
Qed.

(** Joining the output root with an ordinary element puts one slash
    between them. *)
Lemma Join_root_plain (root e : string) :
  plain root = true -> plain e = true ->
  Join [root; e] = root ++ "/" ++ e.
Proof.
  intros Hr He.
  destruct (plain_parts _ Hr) as [R1 [_ [_ R4]]].
  destruct (plain_parts _ He) as [_ [_ [_ E4]]].
  cbn [Join]. rewrite R1.
  change (String.concat "/" [root; e]) with (root ++ String slash e).
  change (root ++ "/" ++ e) with (root ++ String slash e).
  assert (Hel : elements (root ++ String slash e) = [root; e]).
  { now rewrite (elements_append_slash _ e R4), (elements_no_slash _ E4). }
  destruct root as [|c root]; [discriminate|].
  unfold Clean. cbn [append].
  rewrite (plain_not_rooted _ _ Hr).
  rewrite <- append_comm_cons, Hel. cbn [fold_left].
  rewrite !clean_step_plain by assumption.
  reflexivity.
Qed.

(** An empty second element leaves the root alone. *)
Lemma Join_root_empty (root : string) :
  plain root = true -> Join [root; ""] = root.
Proof.
  intros Hr.
  destruct (plain_parts _ Hr) as [R1 [_ [_ R4]]].
  cbn [Join]. rewrite R1.
  change (String.concat "/" [root; ""]) with (root ++ String slash "").
  assert (Hel : elements (root ++ String slash "") = [root; ""]).
  { now rewrite (elements_append_slash _ "" R4). }
  destruct root as [|c root]; [discriminate|].
  unfold Clean. cbn [append].
  rewrite (plain_not_rooted _ _ Hr).
  rewrite <- append_comm_cons, Hel. cbn [fold_left].
  rewrite (clean_step_plain false [] _ Hr).
  reflexivity.
Qed.

(** The join cleans its result: an empty element adds nothing, and dot
    elements and doubled slashes are resolved lexically. *)
Example Join_examples :
  map (fun e => Join ["_output"; e])
      ["mycluster"; ""; "a/b"; "a//b/"; "./a"; ".."; "../x"; "/abs"]
  = ["_output/mycluster"; "_output"; "_output/a/b"; "_output/a/b";
     "_output/a"; "."; "x"; "_output/abs"].
Proof. vm_compute. reflexivity. Qed.

(** The examples of the documentation of [path.Clean]. *)
Example Clean_examples :
  map Clean ["a/c"; "a//c"; "a/c/."; "a/c/b/.."; "/../a/c";
             "/../a/b/../././/c"; ""]
  = ["a/c"; "a/c"; "a/c"; "a/c"; "/a/c"; "/a/c"; "."].
Proof. vm_compute. reflexivity. Qed.

End GoPathFacts.

(* ================================================================== *)
(** ** Laws of the computation monad *)

Section MonadLaws.
Context {A B : Type}.

Lemma pair_eta (m : M A) : (trace m, outcome m) = m.
Proof. now destruct m. Qed.

Lemma bind_ret (a : A) (f : A -> M B) : bind (ret a) f = f a.
Proof. unfold bind, ret. now destruct (f a). Qed.

Lemma bind_deref_Some (a : A) (f : A -> M B) :
  bind (deref (Some a)) f = f a.
Proof. apply bind_ret. Qed.

Lemma bind_deref_None (f : A -> M B) :
  bind (deref None) f = ([], Panic).
Proof. reflexivity. Qed.

Lemma bind_tell (e : event) (k : M B) :
  bind (tell e) (fun _ => k) = (e :: trace k, outcome k).
Proof. unfold bind, tell. now destruct k. Qed.

Lemma bind_done (t : list event) (a : A) (f : A -> M B) :
  bind (t, Done a) f = ((t ++ trace (f a))%list, outcome (f a)).
Proof. unfold bind. now destruct (f a). Qed.

End MonadLaws.

Section LogLaws.
Context {A B : Type}.

Lemma trace_bind (m : M A) (f : A -> M B) :
  trace (bind m f)
  = (trace m ++ match outcome m with
                | Done a => trace (f a)
                | _ => []
                end)%list.
Proof.
  destruct m as [t [a| |msg]]; unfold bind, trace, outcome; cbn [fst snd].
  - now destruct (f a).
  - now rewrite app_nil_r.
  - now rewrite app_nil_r.
Qed.

Lemma outcome_bind (m : M A) (f : A -> M B) :
  outcome (bind m f)
  = match outcome m with
    | Done a => outcome (f a)
    | Panic => Panic
    | Fatal msg => Fatal msg
    end.
Proof.
  destruct m as [t [a| |msg]]; unfold bind, outcome; cbn [snd];
    try reflexivity.
  now destruct (f a).
Qed.

Lemma trace_defer (e : event) (m : M A) :
  trace (defer e m) = (trace m ++ [e])%list.
Proof. now destruct m. Qed.

Lemma outcome_defer (e : event) (m : M A) :
  outcome (defer e m) = outcome m.
Proof. now destruct m. Qed.

End LogLaws.

(* ================================================================== *)
(** ** The validator, step by step *)

Section ValidatorSteps.
Variable env : Env.

Lemma stat_present (p : string) :
  fs env p <> Absent -> os_IsNotExist (os_Stat (fs env) p) = false.
Proof.
  unfold os_Stat. destruct (fs env p); [congruence | | | ]; reflexivity.
Qed.

Lemma stat_absent (p : string) :
  fs env p = Absent -> os_IsNotExist (os_Stat (fs env) p) = true.
Proof. unfold os_Stat. now intros ->. Qed.

(** The resolution step logs nothing and changes the output directory
    only. *)
Lemma resolve_inv (gc gc1 : generateCmd) (t : list event) :
  resolveOutputDirectory gc = (t, Done gc1) ->
  t = [] /\ gc1 = set_outputDirectory (outputDirectory gc1) gc.
Proof.
  unfold resolveOutputDirectory.
  destruct (String.eqb (outputDirectory gc) "").
  - destruct (containerService gc) as [cs|];
      [rewrite bind_deref_Some | discriminate].
    destruct (api.ContainerService.Properties cs) as [props|];
      [rewrite bind_deref_Some | discriminate].
    destruct (api.Properties.MasterProfile props) as [mp|].
    + intros H. injection H as <- <-. now split.
    + destruct (api.Properties.HostedMasterProfile props) as [hp|];
        [rewrite bind_deref_Some | discriminate].
      intros H. injection H as <- <-. now split.
  - intros H. injection H as <- <-. split; [reflexivity|].
    now destruct gc.
Qed.

Lemma resolve_outcome (gc gc1 : generateCmd) :
  outcome (resolveOutputDirectory gc) = Done gc1 ->
  resolveOutputDirectory gc = ([], Done gc1) /\
  gc1 = set_outputDirectory (outputDirectory gc1) gc.
Proof.
  destruct (resolveOutputDirectory gc) as [t r] eqn:E.
  unfold outcome, snd. intros ->.
  destruct (resolve_inv _ E) as [-> H]. now split.
Qed.

(** Past the existence check, [validatef] is the resolution followed by
    the CA step. *)
Lemma validatef_present (gc gc1 : generateCmd) :
  fs env (apimodelPath gc) <> Absent ->
  outcome (resolveOutputDirectory gc) = Done gc1 ->
  validatef env gc
  = (EvStat (apimodelPath gc) :: trace (consumeCA env gc1),
     outcome (consumeCA env gc1)).
Proof.
  intros Hp Hr. unfold validatef.
  rewrite (stat_present _ Hp), bind_tell.
  destruct (resolve_outcome _ Hr) as [-> _].
  change (@nil event, Done gc1) with (ret gc1).
  now rewrite bind_ret.
Qed.

Lemma validatef_resolve_panics (gc : generateCmd) :
  fs env (apimodelPath gc) <> Absent ->
  outcome (resolveOutputDirectory gc) = Panic ->
  outcome (validatef env gc) = Panic.
Proof.
  intros Hp Hr. unfold validatef.
  rewrite (stat_present _ Hp), bind_tell.
  destruct (resolveOutputDirectory gc) as [t r].
  unfold outcome, snd in *. now subst r.
Qed.

Lemma validatef_absent (gc : generateCmd) :
  fs env (apimodelPath gc) = Absent ->
  validatef env gc
  = ([EvStat (apimodelPath gc)],
     Done (gc, Some (fmt_Errorf env
                       ("specified api model does not exist ("
                        ++ apimodelPath gc ++ ")")))).
Proof.
  intros Hp. unfold validatef. now rewrite (stat_absent _ Hp), bind_tell.
Qed.

(** Every way the CA step can end. *)
Lemma consumeCA_cases (gc : generateCmd) :
  match outcome (consumeCA env gc) with
  | Done (gc', Some e) => gc' = gc /\ ca_error env gc e
  | Done (gc', None) =>
      (gc' = gc /\ caCertificatePath gc = "" /\ caPrivateKeyPath gc = "")
      \/ (exists cb kb cs prop,
            ioutil_ReadFile (fs env) (caCertificatePath gc) = Val cb /\
            ioutil_ReadFile (fs env) (caPrivateKeyPath gc) = Val kb /\
            containerService gc = Some cs /\
            api.ContainerService.Properties cs = Some prop /\
            gc' = set_containerService
                    (Some (api.ContainerService.set_Properties
                             (Some (api.Properties.set_CertificateProfile
                                      (Some (withCA
                                         (api.Properties.CertificateProfile prop)
                                         cb kb))
                                      prop))
                             cs))
                    gc)
  | Panic =>
      containerService gc = None
      \/ exists cs, containerService gc = Some cs /\
                    api.ContainerService.Properties cs = None
  | Fatal _ => False
  end.
Proof.
  unfold consumeCA.
  destruct (String.eqb (caCertificatePath gc) "") eqn:Ec;
    destruct (String.eqb (caPrivateKeyPath gc) "") eqn:Ek;
    cbn [negb andb orb].
  - apply String.eqb_eq in Ec, Ek. now left.
  - split; [reflexivity | now left].
  - split; [reflexivity | now left].
  - rewrite bind_tell. unfold outcome at 1. cbn [snd].
    destruct (ioutil_ReadFile (fs env) (caCertificatePath gc))
      as [cb|e1] eqn:R1.
    2:{ split; [reflexivity|]. right; left. now exists e1. }
    rewrite bind_tell. unfold outcome at 1. cbn [snd].
    destruct (ioutil_ReadFile (fs env) (caPrivateKeyPath gc))
      as [kb|e2] eqn:R2.
    2:{ split; [reflexivity|]. right; right. now exists e2. }
    destruct (containerService gc) as [cs|] eqn:Ecs;
      [rewrite bind_deref_Some | now left].
    destruct (api.ContainerService.Properties cs) as [prop|] eqn:Ep;
      [rewrite bind_deref_Some|].
    + right. now exists cb, kb, cs, prop.
    + right. now exists cs.
Qed.

(** The CA step never touches the output directory. *)
Lemma consumeCA_outputDirectory (gc gc' : generateCmd) (r : option error) :
  outcome (consumeCA env gc) = Done (gc', r) ->
  outputDirectory gc' = outputDirectory gc.
Proof.
  intros H. pose proof (consumeCA_cases gc) as C. rewrite H in C.
  destruct r as [e|].
  - now destruct C as [-> _].
  - destruct C as [[-> _] | (cb & kb & cs & prop & _ & _ & _ & _ & ->)];
      reflexivity.
Qed.

(** With a loaded model the CA step returns. *)
Lemma consumeCA_returns (gc : generateCmd) cs prop :
  containerService gc = Some cs ->
  api.ContainerService.Properties cs = Some prop ->
  exists gc' r, outcome (consumeCA env gc) = Done (gc', r).
Proof.
  intros Hcs Hp. pose proof (consumeCA_cases gc) as C.
  destruct (outcome (consumeCA env gc)) as [[gc' r]| |msg].
  - now exists gc', r.
  - destruct C as [C | [cs' [C1 C2]]]; congruence.
  - contradiction.
Qed.

End ValidatorSteps.

Section ValidatorFacts.
Variable env : Env.

(** A returning [validatef] either stopped at the existence check or went
    through the resolution and the CA step. *)
Lemma validatef_cases (gc gc' : generateCmd) (r : option error) :
  outcome (validatef env gc) = Done (gc', r) ->
  (fs env (apimodelPath gc) = Absent /\ gc' = gc /\
   r = Some (fmt_Errorf env ("specified api model does not exist ("
                             ++ apimodelPath gc ++ ")")))
  \/ (fs env (apimodelPath gc) <> Absent /\
      exists gc1, outcome (resolveOutputDirectory gc) = Done gc1 /\
                  outcome (consumeCA env gc1) = Done (gc', r)).
Proof.
  intros H.
  assert (D : fs env (apimodelPath gc) = Absent
              \/ fs env (apimodelPath gc) <> Absent)
    by (destruct (fs env (apimodelPath gc)); auto; right; discriminate).
  destruct D as [D|D].
  - left. rewrite (validatef_absent env gc D) in H.
    unfold outcome, snd in H. injection H as <- <-. auto.
  - right. split; [exact D|].
    destruct (outcome (resolveOutputDirectory gc)) as [gc1| |msg] eqn:R.
    + exists gc1. split; [reflexivity|].
      now rewrite (validatef_present env gc D R) in H.
    + rewrite (validatef_resolve_panics env gc D R) in H. discriminate.
    + exfalso. unfold resolveOutputDirectory in R.
      destruct (String.eqb (outputDirectory gc) ""); [|discriminate].
      destruct (containerService gc) as [cs|];
        [rewrite bind_deref_Some in R | discriminate].
      destruct (api.ContainerService.Properties cs) as [props|];
        [rewrite bind_deref_Some in R | discriminate].
      destruct (api.Properties.MasterProfile props); [discriminate|].
      destruct (api.Properties.HostedMasterProfile props); discriminate.
Qed.

Lemma resolve_keeps (gc gc1 : generateCmd) :
  outcome (resolveOutputDirectory gc) = Done gc1 ->
  apimodelPath gc1 = apimodelPath gc /\
  caCertificatePath gc1 = caCertificatePath gc /\
  caPrivateKeyPath gc1 = caPrivateKeyPath gc /\
  containerService gc1 = containerService gc.
Proof.
  intros H. destruct (resolve_outcome _ H) as [_ ->]. now repeat split.
Qed.

Lemma consumeCA_unpaired (gc : generateCmd) :
  unpaired gc ->
  consumeCA env gc = ([], Done (gc, Some (errors_New caPairingMessage))).
Proof.
  unfold unpaired, consumeCA.
  intros [[Hc Hk] | [Hc Hk]].
  - apply String.eqb_neq in Hc. rewrite Hc, Hk. reflexivity.
  - apply String.eqb_neq in Hk. rewrite Hc, Hk. reflexivity.
Qed.

Section BothPaths.
Variable gc : generateCmd.
Hypothesis Hcert : caCertificatePath gc <> "".
Hypothesis Hkey : caPrivateKeyPath gc <> "".

Lemma consumeCA_cert_fails (err : error) :
  ioutil_ReadFile (fs env) (caCertificatePath gc) = Fail err ->
  consumeCA env gc
  = ([EvReadFile (caCertificatePath gc)],
     Done (gc, Some (fmt_Errorf env
                       ("failed to read CA certificate file: "
                        ++ Error err)))).
Proof.
  intros R. unfold consumeCA.
  apply String.eqb_neq in Hcert, Hkey.
  rewrite Hcert, Hkey. cbn [negb andb orb].
  now rewrite bind_tell, R.
Qed.

Lemma consumeCA_key_fails (cb : list byte) (err : error) :
  ioutil_ReadFile (fs env) (caCertificatePath gc) = Val cb ->
  ioutil_ReadFile (fs env) (caPrivateKeyPath gc) = Fail err ->
  consumeCA env gc
  = ([EvReadFile (caCertificatePath gc); EvReadFile (caPrivateKeyPath gc)],
     Done (gc, Some (fmt_Errorf env
                       ("failed to read CA private key file: "
                        ++ Error err)))).
Proof.
  intros R1 R2. unfold consumeCA.
  apply String.eqb_neq in Hcert, Hkey.
  rewrite Hcert, Hkey. cbn [negb andb orb].
  now rewrite bind_tell, R1, bind_tell, R2.
Qed.

Lemma consumeCA_populates (cb kb : list byte) cs prop :
  ioutil_ReadFile (fs env) (caCertificatePath gc) = Val cb ->
  ioutil_ReadFile (fs env) (caPrivateKeyPath gc) = Val kb ->
  containerService gc = Some cs ->
  api.ContainerService.Properties cs = Some prop ->
  consumeCA env gc
  = ([EvReadFile (caCertificatePath gc); EvReadFile (caPrivateKeyPath gc)],
     Done (set_containerService
             (Some (api.ContainerService.set_Properties
                      (Some (api.Properties.set_CertificateProfile
                               (Some (withCA
                                  (api.Properties.CertificateProfile prop)
                                  cb kb))
                               prop))
                      cs))
             gc, None)).
Proof.
  intros R1 R2 Hcs Hp. unfold consumeCA.
  apply String.eqb_neq in Hcert, Hkey.
  rewrite Hcert, Hkey. cbn [negb andb orb].
  rewrite bind_tell, R1, bind_tell, R2, Hcs, bind_deref_Some, Hp,
    bind_deref_Some.
  reflexivity.
Qed.

End BothPaths.

End ValidatorFacts.

(* ================================================================== *)
(** ** The CA pair *)

(** With exactly one CA path set validation never succeeds. *)
Lemma unpaired_never_validates (env : Env) (gc gc' : generateCmd) :
  unpaired gc -> outcome (validatef env gc) <> Done (gc', None).
Proof.
  intros Hu H.
  destruct (validatef_cases env gc H)
    as [(_ & _ & E) | (_ & gc1 & Hr & Hca)]; [discriminate|].
  destruct (resolve_keeps gc Hr) as (_ & Ec & Ek & _).
  assert (Hu1 : unpaired gc1) by (unfold unpaired; now rewrite Ec, Ek).
  rewrite (consumeCA_unpaired env Hu1) in Hca. discriminate.
Qed.

(** C2, as amended.  When exactly one of the CA certificate path and the CA
    private key path is set, whichever it is, validation never succeeds.
    If the api model does not exist it returns the does-not-exist error;
    if the api model exists and the output directory is given or has been
    derived, it returns the error whose message is [caPairingMessage],
    that the two flags must be specified together: it names both flags,
    and no CA file is read. *)
Theorem unpaired_ca_paths_rejected (env : Env) (gc : generateCmd) :
  unpaired gc ->
  (forall gc', outcome (validatef env gc) <> Done (gc', None))
  /\ (fs env (apimodelPath gc) = Absent ->
      validatef env gc
      = ([EvStat (apimodelPath gc)],
         Done (gc, Some (fmt_Errorf env
                           ("specified api model does not exist ("
                            ++ apimodelPath gc ++ ")")))))
  /\ (forall gc1,
        fs env (apimodelPath gc) <> Absent ->
        outcome (resolveOutputDirectory gc) = Done gc1 ->
        validatef env gc
        = ([EvStat (apimodelPath gc)],
           Done (gc1, Some (errors_New caPairingMessage))))
  /\ GoStrings.Contains caPairingMessage "--ca-certificate-path" = true
  /\ GoStrings.Contains caPairingMessage "--ca-private-key-path" = true
  /\ GoStrings.Contains caPairingMessage "must be specified together" = true.
Proof.
  intros Hu.
  split; [intros gc'; now apply unpaired_never_validates|].
  split; [now apply validatef_absent|].
  split; [|now vm_compute].
  intros gc1 Hp Hr.
  rewrite (validatef_present env gc Hp Hr).
  destruct (resolve_keeps gc Hr) as (_ & Ec & Ek & _).
  assert (Hu1 : unpaired gc1) by (unfold unpaired; now rewrite Ec, Ek).
  now rewrite (consumeCA_unpaired env Hu1).
Qed.

(** [generate --api-model cluster.json --output-directory out
    --ca-certificate-path ca.crt]: the pairing error comes back. *)
Lemma unpaired_ca_paths_rejected_witness :
  validatef Sample.world
    (flagCmd (mkFlags "cluster.json" "out" "ca.crt" "" false false false))
  = ([EvStat "cluster.json"],
     Done (flagCmd (mkFlags "cluster.json" "out" "ca.crt" "" false false false),
           Some (errors_New caPairingMessage))).
Proof.
  refine (proj1 (proj2 (proj2 (@unpaired_ca_paths_rejected Sample.world
            (flagCmd (mkFlags "cluster.json" "out" "ca.crt" "" false false
                        false)) _)))
            (flagCmd (mkFlags "cluster.json" "out" "ca.crt" "" false false
                        false)) _ _).
  - left. split; [vm_compute; discriminate | reflexivity].
  - vm_compute. discriminate.
  - vm_compute. reflexivity.
Defined.

(** C2, as stated, fails: [generate --api-model missing.json
    --output-directory out --ca-certificate-path ca.crt] sets exactly one
    CA path, and validation returns the does-not-exist error of the
    existence check, not the pairing error. *)
Lemma unpaired_with_missing_model_reports_the_model :
  unpaired (flagCmd (mkFlags "missing.json" "out" "ca.crt" "" false false
                       false))
  /\ validatef Sample.world
       (flagCmd (mkFlags "missing.json" "out" "ca.crt" "" false false false))
     = ([EvStat "missing.json"],
        Done (flagCmd (mkFlags "missing.json" "out" "ca.crt" "" false false
                         false),
              Some (errorString
                      "specified api model does not exist (missing.json)")))
  /\ errorString "specified api model does not exist (missing.json)"
     <> errors_New caPairingMessage.
Proof.
  split; [|split].
  - left. split; [vm_compute; discriminate | reflexivity].
  - vm_compute. reflexivity.
  - vm_compute. discriminate.
Qed.

(** Only the key path is set: the same error. *)
Example unpaired_key_only :
  outcome (validatef Sample.world
             (Sample.loaded Sample.managedProps "out" "" "ca.key"))
  = Done (Sample.loaded Sample.managedProps "out" "" "ca.key",
          Some (errors_New caPairingMessage)).
Proof. vm_compute. reflexivity. Qed.

(** The CA step on a loaded model.  When both CA paths are set and
    validation gets past the existence check and the output-directory
    resolution: if both files are read and the model is loaded, validation
    succeeds and the model's certificate profile is the former one, or a
    fresh one when there was none, with its CA certificate and CA private
    key set to exactly the bytes of the two files; if reading the
    certificate file or the key file fails, validation returns the
    corresponding read error and the model is left as it was. *)
Theorem paired_ca_files_populate_profile (env : Env) (gc gc1 : generateCmd) :
  fs env (apimodelPath gc) <> Absent ->
  outcome (resolveOutputDirectory gc) = Done gc1 ->
  caCertificatePath gc <> "" ->
  caPrivateKeyPath gc <> "" ->
  (forall cb kb cs prop,
      ioutil_ReadFile (fs env) (caCertificatePath gc) = Val cb ->
      ioutil_ReadFile (fs env) (caPrivateKeyPath gc) = Val kb ->
      containerService gc = Some cs ->
      api.ContainerService.Properties cs = Some prop ->
      exists gc' cp,
        outcome (validatef env gc) = Done (gc', None) /\
        certificateProfile gc' = Some cp /\
        cp = withCA (api.Properties.CertificateProfile prop) cb kb /\
        api.CertificateProfile.CaCertificate cp = string_of_list_byte cb /\
        api.CertificateProfile.CaPrivateKey cp = string_of_list_byte kb /\
        list_byte_of_string (api.CertificateProfile.CaCertificate cp) = cb /\
        list_byte_of_string (api.CertificateProfile.CaPrivateKey cp) = kb /\
        api.CertificateProfile.other cp
        = match api.Properties.CertificateProfile prop with
          | Some old => api.CertificateProfile.other old
          | None => []
          end)
  /\ (forall err,
        ioutil_ReadFile (fs env) (caCertificatePath gc) = Fail err ->
        outcome (validatef env gc)
        = Done (gc1, Some (fmt_Errorf env
                             ("failed to read CA certificate file: "
                              ++ Error err))))
  /\ (forall cb err,
        ioutil_ReadFile (fs env) (caCertificatePath gc) = Val cb ->
        ioutil_ReadFile (fs env) (caPrivateKeyPath gc) = Fail err ->
        outcome (validatef env gc)
        = Done (gc1, Some (fmt_Errorf env
                             ("failed to read CA private key file: "
                              ++ Error err)))).
Proof.
  intros Hp Hr Hc Hk.
  rewrite (validatef_present env gc Hp Hr). unfold outcome at 1 2 3. cbn [snd].
  destruct (resolve_keeps gc Hr) as (_ & Ec & Ek & Ecs).
  rewrite <- Ec in Hc. rewrite <- Ek in Hk. rewrite <- Ec, <- Ek, <- Ecs.
  split; [|split].
  - intros cb kb cs prop R1 R2 Hcs Hprop.
    rewrite (@consumeCA_populates env gc1 Hc Hk cb kb cs prop R1 R2 Hcs Hprop).
    eexists _, _. split; [reflexivity|].
    split; [reflexivity|]. split; [reflexivity|].
    split; [reflexivity|]. split; [reflexivity|].
    split; [apply list_byte_of_string_of_list_byte|].
    split; [apply list_byte_of_string_of_list_byte|].
    now destruct (api.Properties.CertificateProfile prop).
  - intros err R1. now rewrite (@consumeCA_cert_fails env gc1 Hc Hk err R1).
  - intros cb err R1 R2. now rewrite (@consumeCA_key_fails env gc1 Hc Hk cb err R1 R2).
Qed.

(** Both files on the sample disk, no certificate profile yet: a fresh
    profile holds the two payloads. *)
Lemma paired_ca_files_populate_profile_witness :
  exists gc',
    outcome (validatef Sample.world
               (Sample.loaded Sample.managedProps "out" "ca.crt" "ca.key"))
    = Done (gc', None) /\
    certificateProfile gc' = Some (api.CertificateProfile.mk "CERT" "KEY" []).
Proof.
  destruct (proj1 (@paired_ca_files_populate_profile Sample.world
             (Sample.loaded Sample.managedProps "out" "ca.crt" "ca.key")
             (Sample.loaded Sample.managedProps "out" "ca.crt" "ca.key")
             ltac:(vm_compute; discriminate) ltac:(vm_compute; reflexivity)
             ltac:(vm_compute; discriminate) ltac:(vm_compute; discriminate))
             (list_byte_of_string "CERT") (list_byte_of_string "KEY")
             (api.ContainerService.mk (Some Sample.managedProps) [])
             Sample.managedProps
             ltac:(vm_compute; reflexivity) ltac:(vm_compute; reflexivity)
             ltac:(vm_compute; reflexivity) ltac:(vm_compute; reflexivity))
    as (gc' & cp & H1 & H2 & H3 & _).
  exists gc'. split; [exact H1|]. rewrite H2, H3. reflexivity.
Defined.

(** C10.  Validation is atomic with respect to the certificate profile:
    whenever [validatef] returns an error, the loaded model, and with it
    the certificate profile, is exactly as it was before; the profile
    differs afterwards only when validation succeeded after reading both CA
    files, and then it holds their contents. *)
Theorem validation_error_leaves_certificate_profile
  (env : Env) (gc gc' : generateCmd) (r : option error) :
  outcome (validatef env gc) = Done (gc', r) ->
  (forall e, r = Some e ->
             containerService gc' = containerService gc /\
             certificateProfile gc' = certificateProfile gc)
  /\ (certificateProfile gc' <> certificateProfile gc ->
      r = None /\
      exists cb kb,
        ioutil_ReadFile (fs env) (caCertificatePath gc) = Val cb /\
        ioutil_ReadFile (fs env) (caPrivateKeyPath gc) = Val kb /\
        certificateProfile gc' = Some (withCA (certificateProfile gc) cb kb)).
Proof.
  intros H.
  destruct (validatef_cases env gc H)
    as [(_ & -> & ->) | (_ & gc1 & Hr & Hca)].
  - split; [now intros | intros N; now elim N].
  - destruct (resolve_keeps gc Hr) as (_ & Ec & Ek & Ecs).
    assert (Ecp : certificateProfile gc1 = certificateProfile gc)
      by (unfold certificateProfile; now rewrite Ecs).
    pose proof (consumeCA_cases env gc1) as C. rewrite Hca in C.
    destruct r as [e|].
    + destruct C as [-> _].
      split; [intros e' _; now split | intros N; now elim N].
    + split; [discriminate|]. intros N.
      destruct C as [[-> _] | (cb & kb & cs & prop & R1 & R2 & Hcs & Hp & ->)];
        [now elim N|].
      split; [reflexivity|]. exists cb, kb.
      rewrite <- Ec, <- Ek, <- Ecp. repeat split; try assumption.
      unfold certificateProfile at 2. rewrite Hcs, Hp. reflexivity.
Qed.

(** The key file cannot be opened: the read error comes back and the
    sample model still has no certificate profile. *)
Lemma validation_error_leaves_certificate_profile_witness :
  certificateProfile
    (Sample.loaded Sample.managedProps "out" "ca.crt" "locked.key")
  = None /\
  exists gc' e,
    outcome (validatef Sample.world
               (Sample.loaded Sample.managedProps "out" "ca.crt" "locked.key"))
    = Done (gc', Some e) /\
    certificateProfile gc' = None.
Proof.
  split; [reflexivity|].
  eexists _, _. split; [vm_compute; reflexivity|].
  refine (proj2 (proj1 (@validation_error_leaves_certificate_profile
            Sample.world
            (Sample.loaded Sample.managedProps "out" "ca.crt" "locked.key")
            _ _ _) _ eq_refl)).
  vm_compute. reflexivity.
Defined.

(* ================================================================== *)
(** ** The output directory *)

Section OutputDirectory.
Variable env : Env.
Variables (gc : generateCmd) (cs : api.ContainerService.t)
          (props : api.Properties.t).
Hypothesis Hpresent : fs env (apimodelPath gc) <> Absent.
Hypothesis Hnone : outputDirectory gc = "".
Hypothesis Hcs : containerService gc = Some cs.
Hypothesis Hprops : api.ContainerService.Properties cs = Some props.

Lemma resolve_managed (mp : api.MasterProfile.t) :
  api.Properties.MasterProfile props = Some mp ->
  resolveOutputDirectory gc
  = ([], Done (set_outputDirectory
                 (GoPath.Join [outputRoot; api.MasterProfile.DNSPrefix mp])
                 gc)).
Proof.
  intros Hm. unfold resolveOutputDirectory.
  rewrite Hnone, Hcs, bind_deref_Some, Hprops, bind_deref_Some, Hm.
  reflexivity.
Qed.

Lemma resolve_hosted (hp : api.HostedMasterProfile.t) :
  api.Properties.MasterProfile props = None ->
  api.Properties.HostedMasterProfile props = Some hp ->
  resolveOutputDirectory gc
  = ([], Done (set_outputDirectory
                 (GoPath.Join
                    [outputRoot; api.HostedMasterProfile.DNSPrefix hp])
                 gc)).
Proof.
  intros Hm Hh. unfold resolveOutputDirectory.
  rewrite Hnone, Hcs, bind_deref_Some, Hprops, bind_deref_Some, Hm, Hh,
    bind_deref_Some.
  reflexivity.
Qed.

Lemma resolve_neither :
  api.Properties.MasterProfile props = None ->
  api.Properties.HostedMasterProfile props = None ->
  resolveOutputDirectory gc = ([], Panic).
Proof.
  intros Hm Hh. unfold resolveOutputDirectory.
  rewrite Hnone, Hcs, bind_deref_Some, Hprops, bind_deref_Some, Hm, Hh.
  reflexivity.
Qed.

(** Once the directory is resolved to [d], validation returns with it,
    and any error it returns is one of the CA step. *)
Lemma validatef_resolved (d : string) :
  resolveOutputDirectory gc = ([], Done (set_outputDirectory d gc)) ->
  exists gc' r,
    outcome (validatef env gc) = Done (gc', r) /\
    outputDirectory gc' = d /\
    (forall e, r = Some e -> ca_error env gc e) /\
    (caCertificatePath gc = "" -> caPrivateKeyPath gc = "" -> r = None).
Proof.
  intros Hr.
  assert (Hr' : outcome (resolveOutputDirectory gc)
                = Done (set_outputDirectory d gc)) by now rewrite Hr.
  rewrite (validatef_present env gc Hpresent Hr').
  unfold outcome at 1. cbn [snd].
  destruct (@consumeCA_returns env (set_outputDirectory d gc) cs props
              Hcs Hprops) as (gc' & r & Hca).
  exists gc', r. split; [exact Hca|].
  split; [now rewrite (consumeCA_outputDirectory env _ Hca)|].
  pose proof (consumeCA_cases env (set_outputDirectory d gc)) as C.
  rewrite Hca in C. split.
  - intros e ->. now destruct C as [_ C].
  - intros Hc Hk. destruct r as [e|]; [|reflexivity].
    exfalso. unfold consumeCA in Hca. cbn [caCertificatePath
      caPrivateKeyPath set_outputDirectory] in Hca.
    rewrite Hc, Hk in Hca. discriminate.
Qed.

End OutputDirectory.

(** C4.  With no explicit output directory and a loaded model, validation
    past the existence check leaves the output directory at the join of the
    root [_output] and the DNS prefix [p] of the managed master profile
    when that profile is present, and of the DNS prefix [q] of the hosted
    master profile when only that one is present; the join is [path.Join],
    and for an ordinary name it is literally the root, a slash and the
    name. *)
Theorem output_directory_follows_master_profile
  (env : Env) (gc : generateCmd) (cs : api.ContainerService.t)
  (props : api.Properties.t) :
  fs env (apimodelPath gc) <> Absent ->
  outputDirectory gc = "" ->
  containerService gc = Some cs ->
  api.ContainerService.Properties cs = Some props ->
  (forall mp,
      api.Properties.MasterProfile props = Some mp ->
      let p := api.MasterProfile.DNSPrefix mp in
      exists gc' r,
        outcome (validatef env gc) = Done (gc', r) /\
        outputDirectory gc' = GoPath.Join [outputRoot; p] /\
        (GoPath.plain p = true ->
         outputDirectory gc' = outputRoot ++ "/" ++ p))
  /\ (forall hp,
        api.Properties.MasterProfile props = None ->
        api.Properties.HostedMasterProfile props = Some hp ->
        let q := api.HostedMasterProfile.DNSPrefix hp in
        exists gc' r,
          outcome (validatef env gc) = Done (gc', r) /\
          outputDirectory gc' = GoPath.Join [outputRoot; q] /\
          (GoPath.plain q = true ->
           outputDirectory gc' = outputRoot ++ "/" ++ q)).
Proof.
  intros Hp Hn Hcs Hprops. split.
  - intros mp Hm p.
    destruct (validatef_resolved env Hp Hcs Hprops
                (resolve_managed gc Hn Hcs Hprops Hm))
      as (gc' & r & H1 & H2 & _).
    exists gc', r. split; [exact H1|]. split; [exact H2|].
    intros Hplain. rewrite H2.
    now apply GoPathFacts.Join_root_plain.
  - intros hp Hm Hh q.
    destruct (validatef_resolved env Hp Hcs Hprops
                (resolve_hosted gc Hn Hcs Hprops Hm Hh))
      as (gc' & r & H1 & H2 & _).
    exists gc', r. split; [exact H1|]. split; [exact H2|].
    intros Hplain. rewrite H2.
    now apply GoPathFacts.Join_root_plain.
Qed.

(** The managed sample resolves to [_output/docprefix]. *)
Lemma output_directory_follows_master_profile_witness :
  exists gc' r,
    outcome (validatef Sample.world
               (Sample.loaded Sample.managedProps "" "" ""))
    = Done (gc', r) /\
    outputDirectory gc' = "_output/docprefix".
Proof.
  destruct (proj1 (@output_directory_follows_master_profile Sample.world
              (Sample.loaded Sample.managedProps "" "" "")
              (api.ContainerService.mk (Some Sample.managedProps) [])
              Sample.managedProps
              ltac:(vm_compute; discriminate) eq_refl eq_refl eq_refl)
              (api.MasterProfile.mk "docprefix" [("count", "1")]) eq_refl)
    as (gc' & r & H1 & _ & H3).
  exists gc', r. split; [exact H1|].
  exact (H3 eq_refl).
Defined.

(** C1, as amended.  With no explicit output directory, validation of a
    loaded model whose managed master profile is absent and whose hosted
    master profile is present does not crash.  If the api model does not
    exist it returns the does-not-exist error and changes nothing.
    Otherwise the output directory resolves to the join of the root and
    the hosted DNS prefix, the root itself for an empty prefix; the
    resolution returns no error of its own, so past the existence check
    validation can only fail in the CA step and succeeds when no CA path
    is given. *)
Theorem hosted_profile_resolution_is_total
  (env : Env) (gc : generateCmd) (cs : api.ContainerService.t)
  (props : api.Properties.t) (hp : api.HostedMasterProfile.t) :
  outputDirectory gc = "" ->
  containerService gc = Some cs ->
  api.ContainerService.Properties cs = Some props ->
  api.Properties.MasterProfile props = None ->
  api.Properties.HostedMasterProfile props = Some hp ->
  exists gc' r,
    outcome (validatef env gc) = Done (gc', r) /\
    (fs env (apimodelPath gc) = Absent ->
     gc' = gc /\
     r = Some (fmt_Errorf env
                 ("specified api model does not exist ("
                  ++ apimodelPath gc ++ ")"))) /\
    (fs env (apimodelPath gc) <> Absent ->
     outputDirectory gc'
     = GoPath.Join [outputRoot; api.HostedMasterProfile.DNSPrefix hp] /\
     (api.HostedMasterProfile.DNSPrefix hp = "" ->
      outputDirectory gc' = outputRoot) /\
     (forall e, r = Some e -> ca_error env gc e) /\
     (caCertificatePath gc = "" -> caPrivateKeyPath gc = "" -> r = None)).
Proof.
  intros Hn Hcs Hprops Hm Hh.
  assert (D : fs env (apimodelPath gc) = Absent
              \/ fs env (apimodelPath gc) <> Absent)
    by (destruct (fs env (apimodelPath gc)); auto; right; discriminate).
  destruct D as [D|D].
  - eexists _, _. rewrite (validatef_absent env gc D).
    split; [reflexivity|]. split; [now split | intros N; now elim N].
  - destruct (validatef_resolved env D Hcs Hprops
                (resolve_hosted gc Hn Hcs Hprops Hm Hh))
      as (gc' & r & H1 & H2 & H3 & H4).
    exists gc', r. split; [exact H1|].
    split; [intros N; now elim D|]. intros _.
    repeat split; try assumption.
    intros He. rewrite H2, He. now apply GoPathFacts.Join_root_empty.
Qed.

(** A hosted profile with an empty prefix: validation succeeds and the
    directory is the root. *)
Lemma hosted_profile_resolution_is_total_witness :
  exists gc',
    outcome (validatef Sample.world
               (Sample.loaded Sample.emptyPrefixProps "" "" ""))
    = Done (gc', None) /\
    outputDirectory gc' = "_output".
Proof.
  destruct (@hosted_profile_resolution_is_total Sample.world
              (Sample.loaded Sample.emptyPrefixProps "" "" "")
              (api.ContainerService.mk (Some Sample.emptyPrefixProps) [])
              Sample.emptyPrefixProps (api.HostedMasterProfile.mk "" [])
              eq_refl eq_refl eq_refl eq_refl eq_refl)
    as (gc' & r & H1 & _ & H2).
  destruct (H2 ltac:(vm_compute; discriminate)) as (_ & H3 & _ & H5).
  exists gc'. rewrite <- (H5 eq_refl eq_refl). split; [exact H1|].
  exact (H3 eq_refl).
Defined.

(** C1, as stated, fails: with neither master profile in the model the
    resolution dereferences the absent hosted profile, and validation
    panics instead of returning an error. *)
Lemma neither_profile_resolution_panics :
  validatef Sample.world (Sample.loaded Sample.bareProps "" "" "")
  = ([EvStat "cluster.json"], Panic).
Proof. vm_compute. reflexivity. Qed.

(* ================================================================== *)
(** ** The existence checks *)

(** C8.  When the cluster definition does not exist on disk, [NewGenerator]
    returns the error of [os.Open], one [os.IsNotExist] recognises, having
    made no other call, so before any deserialization; and [validatef]
    returns its own does-not-exist error after the [os.Stat] call alone,
    with the command unchanged. *)
Theorem missing_document_is_reported_first (env : Env) (path : string) :
  fs env path = Absent ->
  (forall conf,
      ApiConfPath conf = path ->
      NewGenerator env conf
      = ([EvOpen path], Done (Fail (PathError "open" path ENOENT))) /\
      os_IsNotExist (Some (PathError "open" path ENOENT)) = true /\
      no_deserialization (trace (NewGenerator env conf)) = true)
  /\ (forall gc,
        apimodelPath gc = path ->
        validatef env gc
        = ([EvStat path],
           Done (gc, Some (fmt_Errorf env
                             ("specified api model does not exist ("
                              ++ path ++ ")"))))).
Proof.
  intros Habs. split.
  - intros conf <-.
    assert (E : NewGenerator env conf
                = ([EvOpen (ApiConfPath conf)],
                   Done (Fail (PathError "open" (ApiConfPath conf) ENOENT)))).
    { unfold NewGenerator, os_Open. now rewrite Habs, bind_tell. }
    rewrite E. repeat split.
  - intros gc <-. now apply validatef_absent.
Qed.

(** Nothing is called [missing.json] on the sample disk. *)
Lemma missing_document_is_reported_first_witness :
  NewGenerator Sample.world (Sample.conf "missing.json")
  = ([EvOpen "missing.json"],
     Done (Fail (PathError "open" "missing.json" ENOENT)))
  /\ validatef Sample.world (flagCmd (Sample.flags "missing.json" ""))
     = ([EvStat "missing.json"],
        Done (flagCmd (Sample.flags "missing.json" ""),
              Some (errorString
                      "specified api model does not exist (missing.json)"))).
Proof.
  split.
  - exact (proj1 (proj1 (@missing_document_is_reported_first Sample.world
                           "missing.json" eq_refl)
                    (Sample.conf "missing.json") eq_refl)).
  - exact (proj2 (@missing_document_is_reported_first Sample.world
                    "missing.json" eq_refl)
             (flagCmd (Sample.flags "missing.json" "")) eq_refl).
Defined.

(* ================================================================== *)
(** ** The command line *)

Section CommandLine.
Variable env : Env.

(** Validation never deserializes anything. *)
Lemma validatef_never_loads (gc : generateCmd) :
  no_deserialization (trace (validatef env gc)) = true.
Proof.
  unfold validatef. rewrite bind_tell.
  destruct (os_IsNotExist (os_Stat (fs env) (apimodelPath gc)));
    [reflexivity|].
  destruct (outcome (resolveOutputDirectory gc)) as [gc1| |msg] eqn:R.
  - destruct (resolve_outcome _ R) as [-> _].
    change (@nil event, Done gc1) with (ret gc1). rewrite bind_ret.
    unfold consumeCA.
    destruct (negb (caCertificatePath gc1 =? "") && (caPrivateKeyPath gc1 =? "")
              || (caCertificatePath gc1 =? "") && negb (caPrivateKeyPath gc1 =? ""));
      [reflexivity|].
    destruct (negb (caCertificatePath gc1 =? "")); [|reflexivity].
    rewrite bind_tell.
    destruct (ioutil_ReadFile (fs env) (caCertificatePath gc1));
      [|reflexivity].
    rewrite bind_tell.
    destruct (ioutil_ReadFile (fs env) (caPrivateKeyPath gc1));
      [|reflexivity].
    destruct (containerService gc1) as [cs|]; [|reflexivity].
    rewrite bind_deref_Some.
    destruct (api.ContainerService.Properties cs); reflexivity.
  - destruct (resolveOutputDirectory gc) as [t r] eqn:E.
    unfold outcome, snd in R. subst r.
    assert (t = []) as ->; [|reflexivity].
    unfold resolveOutputDirectory in E.
    destruct (String.eqb (outputDirectory gc) ""); [|discriminate].
    destruct (containerService gc) as [cs|];
      [rewrite bind_deref_Some in E | now injection E].
    destruct (api.ContainerService.Properties cs) as [props|];
      [rewrite bind_deref_Some in E | now injection E].
    destruct (api.Properties.MasterProfile props); [discriminate|].
    destruct (api.Properties.HostedMasterProfile props);
      [discriminate | now injection E].
  - exfalso. unfold resolveOutputDirectory in R.
    destruct (String.eqb (outputDirectory gc) ""); [|discriminate].
    destruct (containerService gc) as [cs|];
      [rewrite bind_deref_Some in R | discriminate].
    destruct (api.ContainerService.Properties cs) as [props|];
      [rewrite bind_deref_Some in R | discriminate].
    destruct (api.Properties.MasterProfile props); [discriminate|].
    destruct (api.Properties.HostedMasterProfile props); discriminate.
Qed.

(** Nor does [validate]: in the command-line path no document is loaded
    into the model before or during validation. *)
Lemma validate_never_loads (gc : generateCmd) (cmd : option Command)
  (args : list string) :
  no_deserialization (trace (validate env gc cmd args)) = true.
Proof.
  unfold validate. rewrite bind_tell.
  destruct (LoadTranslations env) as [loc [e|]]; [reflexivity|].
  unfold trace at 1. cbn [fst no_deserialization forallb is_deserialization
                           negb andb].
  destruct (String.eqb (apimodelPath (set_locale loc gc)) "").
  - destruct args as [|a [|b args]].
    + now destruct cmd.
    + apply validatef_never_loads.
    + now destruct cmd.
  - apply validatef_never_loads.
Qed.

(** A command without a loaded model and without an output directory
    panics in [validatef] once the cluster definition exists. *)
Lemma validatef_unloaded (gc : generateCmd) :
  fs env (apimodelPath gc) <> Absent ->
  outputDirectory gc = "" ->
  containerService gc = None ->
  validatef env gc = ([EvStat (apimodelPath gc)], Panic).
Proof.
  intros Hp Hn Hcs. unfold validatef.
  rewrite (stat_present env _ Hp), bind_tell.
  unfold resolveOutputDirectory. rewrite Hn, Hcs. reflexivity.
Qed.

End CommandLine.

(** With both CA paths set and both files readable, but no model loaded,
    the CA step reads both files and then dereferences the nil model. *)
Lemma consumeCA_unloaded_panics (env : Env) (gc : generateCmd)
  (cb kb : list byte) :
  caCertificatePath gc <> "" -> caPrivateKeyPath gc <> "" ->
  ioutil_ReadFile (fs env) (caCertificatePath gc) = Val cb ->
  ioutil_ReadFile (fs env) (caPrivateKeyPath gc) = Val kb ->
  containerService gc = None ->
  consumeCA env gc
  = ([EvReadFile (caCertificatePath gc); EvReadFile (caPrivateKeyPath gc)],
     Panic).
Proof.
  intros Hc Hk R1 R2 Hcs. unfold consumeCA.
  apply String.eqb_neq in Hc, Hk. rewrite Hc, Hk. cbn [negb andb orb].
  now rewrite bind_tell, R1, bind_tell, R2, Hcs.
Qed.

(** What [validate] does once the translations are loaded and the api
    model is named by the flag or by the single argument. *)
Lemma validate_named (env : Env) (f : Flags) (cmd : option Command)
  (args : list string) (path : string) (loc : option Locale) :
  LoadTranslations env = (loc, None) ->
  names_api_model f args path ->
  validate env (flagCmd f) cmd args
  = (EvLoadTranslations
       :: trace (validatef env
                   (set_apimodelPath path (set_locale loc (flagCmd f)))),
     outcome (validatef env
                (set_apimodelPath path (set_locale loc (flagCmd f))))).
Proof.
  intros Hl Hn. unfold validate. rewrite bind_tell, Hl.
  cbn [apimodelPath set_locale flagCmd].
  destruct Hn as [[Hf Hne] | [Hf ->]].
  - subst path. apply String.eqb_neq in Hne. now rewrite Hne.
  - rewrite Hf. reflexivity.
Qed.

(** C3.  The flags are the only way to set the CA paths, and the command
    they are bound to never gets a model: for every invocation with both
    CA paths set and both files readable that passes the earlier checks
    (the translations load, the api model is named by the flag or by a
    single positional argument, and it exists), validation does not
    populate a certificate profile but panics on the nil container
    service, and with it the command; when the output directory is given
    the panic comes after both CA files have been read. *)
Theorem paired_ca_files_panic_on_unloaded_model
  (env : Env) (f : Flags) (args : list string) (path : string)
  (cb kb : list byte) :
  passes_earlier_checks env f args path ->
  flag_ca_certificate_path f <> "" ->
  flag_ca_private_key_path f <> "" ->
  ioutil_ReadFile (fs env) (flag_ca_certificate_path f) = Val cb ->
  ioutil_ReadFile (fs env) (flag_ca_private_key_path f) = Val kb ->
  outcome (validate env (flagCmd f) (Some tt) args) = Panic
  /\ outcome (RunE env f args) = Panic
  /\ (flag_output_directory f <> "" ->
      validate env (flagCmd f) (Some tt) args
      = ([EvLoadTranslations; EvStat path;
          EvReadFile (flag_ca_certificate_path f);
          EvReadFile (flag_ca_private_key_path f)],
         Panic)).
Proof.
  intros (Hl & Hn & Hp) Hc Hk R1 R2.
  destruct (LoadTranslations env) as [loc err] eqn:L. cbn [snd] in Hl.
  subst err.
  set (gc0 := set_apimodelPath path (set_locale loc (flagCmd f))).
  assert (D : flag_output_directory f <> "" ->
              validatef env gc0
              = ([EvStat path;
                  EvReadFile (flag_ca_certificate_path f);
                  EvReadFile (flag_ca_private_key_path f)], Panic)).
  { intros Hd.
    assert (R : outcome (resolveOutputDirectory gc0) = Done gc0).
    { unfold resolveOutputDirectory.
      replace (String.eqb (outputDirectory gc0) "") with false;
        [reflexivity|]. symmetry. now apply String.eqb_neq. }
    rewrite (validatef_present env gc0 Hp R).
    now rewrite (@consumeCA_unloaded_panics env gc0 cb kb Hc Hk R1 R2
                   eq_refl). }
  assert (P : outcome (validatef env gc0) = Panic).
  { destruct (String.eqb (flag_output_directory f) "") eqn:E.
    - apply String.eqb_eq in E.
      now rewrite (validatef_unloaded env gc0 Hp E eq_refl).
    - apply String.eqb_neq in E. now rewrite (D E). }
  rewrite (@validate_named env f (Some tt) args path loc L Hn). fold gc0.
  split; [exact P|]. split.
  - unfold RunE. rewrite outcome_bind.
    rewrite (@validate_named env f (Some tt) args path loc L Hn). fold gc0.
    unfold outcome at 1. cbn [snd]. now rewrite P.
  - intros Hd. now rewrite (D Hd).
Qed.

(** [generate --api-model cluster.json --output-directory out
    --ca-certificate-path ca.crt --ca-private-key-path ca.key]. *)
Lemma paired_ca_files_panic_on_unloaded_model_witness :
  validate Sample.world
    (flagCmd (mkFlags "cluster.json" "out" "ca.crt" "ca.key" false false
                false)) (Some tt) []
  = ([EvLoadTranslations; EvStat "cluster.json"; EvReadFile "ca.crt";
      EvReadFile "ca.key"], Panic).
Proof.
  refine (proj2 (proj2 (@paired_ca_files_panic_on_unloaded_model
            Sample.world
            (mkFlags "cluster.json" "out" "ca.crt" "ca.key" false false false)
            [] "cluster.json" (list_byte_of_string "CERT")
            (list_byte_of_string "KEY") _ _ _ eq_refl eq_refl)) _).
  - split; [reflexivity|]. split.
    + left. split; [reflexivity | discriminate].
    + vm_compute. discriminate.
  - discriminate.
  - discriminate.
  - discriminate.
Defined.







(* ================================================================== *)
(** ** The loader: cleanup of the serialized model *)

(** The pattern is twelve bytes long and starts with the double quote,
    byte 34. *)
Example emptySubnet_bytes :
  String.length emptySubnet = 12
  /\ map Byte.to_nat (list_byte_of_string emptySubnet)
     = [34; 115; 117; 98; 110; 101; 116; 34; 58; 34; 34; 44].
Proof. split; reflexivity. Qed.

Lemma emptySubnet_not_empty : emptySubnet <> "".
Proof. discriminate. Qed.

(** The cleanup deletes occurrences of the pattern and nothing else: the
    input is a sequence of pattern-free pieces separated by the pattern,
    and the output is those pieces, in order, put together. *)
Lemma cleanup_deletes_only_the_pattern (s : string) :
  exists pieces,
    pieces <> [] /\
    Forall (fun p => ~ GoStrings.occurs emptySubnet p) pieces /\
    s = String.concat emptySubnet pieces /\
    cleanup s = String.concat "" pieces.
Proof.
  apply GoStringsFacts.ReplaceAll_pieces. exact emptySubnet_not_empty.
Qed.

(** C5.  On a serialized document in which the empty-subnet pattern does
    not occur, the cleanup returns its input unchanged, and the bytes
    handed to the deserializer are the bytes that were marshalled. *)
Theorem cleanup_is_noop_on_clean_input (contents : list byte) :
  ~ GoStrings.occurs emptySubnet (string_of_list_byte contents) ->
  cleanup (string_of_list_byte contents) = string_of_list_byte contents
  /\ list_byte_of_string (cleanup (string_of_list_byte contents)) = contents
  /\ forall env gc m,
       json_Marshal env m = Val contents ->
       trace (getContService env gc m) = [EvMarshal; EvDeserialize contents].
Proof.
  intros Habs.
  assert (E : cleanup (string_of_list_byte contents)
              = string_of_list_byte contents)
    by now apply GoStringsFacts.ReplaceAll_absent.
  split; [exact E|].
  split; [rewrite E; apply list_byte_of_string_of_list_byte|].
  intros env gc m Hm. unfold getContService.
  rewrite bind_tell, Hm, bind_tell, E, list_byte_of_string_of_list_byte.
  unfold trace. cbn [fst].
  now destruct (DeserializeContainerService env (locale gc) contents)
    as [[cs ver] [e|]].
Qed.

(** A document with a subnet that is not empty is left alone. *)
Lemma cleanup_is_noop_on_clean_input_witness :
  cleanup "{subnet:10.0.0.0/24,}" = "{subnet:10.0.0.0/24,}".
Proof.
  refine (proj1 (@cleanup_is_noop_on_clean_input
                   (list_byte_of_string "{subnet:10.0.0.0/24,}") _)).
  apply GoStringsFacts.not_Contains_occurs. vm_compute. reflexivity.
Defined.

(** A document with the pattern loses exactly those twelve bytes. *)
Example cleanup_strips_empty_subnet :
  cleanup ("{" ++ emptySubnet ++ "a:1," ++ emptySubnet ++ "b:2}")
  = "{a:1,b:2}".
Proof. vm_compute. reflexivity. Qed.

(* ================================================================== *)
(** ** The override merge *)

Section OverrideMerge.
Variables (conf : GenConf) (m : Model).

Lemma applyOverrides_present mp lp :
  api.Properties.MasterProfile (Props m) = Some mp ->
  api.Properties.LinuxProfile (Props m) = Some lp ->
  applyOverrides conf m = ([], Done (merged conf m mp lp)).
Proof.
  intros Hm Hl. unfold applyOverrides.
  cbn [api.Properties.MasterProfile api.Properties.LinuxProfile
       api.Properties.set_ServicePrincipalProfile
       api.Properties.set_MasterProfile].
  rewrite Hm, bind_deref_Some, Hl, bind_deref_Some.
  reflexivity.
Qed.

Lemma applyOverrides_no_master :
  api.Properties.MasterProfile (Props m) = None ->
  applyOverrides conf m = ([], Panic).
Proof.
  intros Hm. unfold applyOverrides.
  cbn [api.Properties.MasterProfile
       api.Properties.set_ServicePrincipalProfile].
  now rewrite Hm.
Qed.

Lemma applyOverrides_no_linux mp :
  api.Properties.MasterProfile (Props m) = Some mp ->
  api.Properties.LinuxProfile (Props m) = None ->
  applyOverrides conf m = ([], Panic).
Proof.
  intros Hm Hl. unfold applyOverrides.
  cbn [api.Properties.MasterProfile api.Properties.LinuxProfile
       api.Properties.set_ServicePrincipalProfile
       api.Properties.set_MasterProfile].
  now rewrite Hm, bind_deref_Some, Hl.
Qed.

End OverrideMerge.

(** On a model that carries a managed master profile and a linux profile
    the overrides win, whatever the document held, and nothing else of the
    model changes. *)
Lemma applyOverrides_wins (conf : GenConf) (m m' : Model) :
  outcome (applyOverrides conf m) = Done m' ->
  api.Properties.ServicePrincipalProfile (Props m') = CliProfile conf /\
  option_map api.MasterProfile.DNSPrefix
    (api.Properties.MasterProfile (Props m')) = Some (Name conf) /\
  option_map (fun lp => api.SSH.PublicKeys (api.LinuxProfile.SSH lp))
    (api.Properties.LinuxProfile (Props m'))
  = Some [api.PublicKey.mk (SSHKey conf)] /\
  APIVersion m' = APIVersion m /\
  api.Properties.HostedMasterProfile (Props m')
  = api.Properties.HostedMasterProfile (Props m) /\
  api.Properties.CertificateProfile (Props m')
  = api.Properties.CertificateProfile (Props m) /\
  api.Properties.other (Props m') = api.Properties.other (Props m).
Proof.
  destruct (api.Properties.MasterProfile (Props m)) as [mp|] eqn:Hm.
  - destruct (api.Properties.LinuxProfile (Props m)) as [lp|] eqn:Hl.
    + rewrite (applyOverrides_present conf m Hm Hl).
      unfold outcome, snd. intros H. injection H as <-. now repeat split.
    + now rewrite (applyOverrides_no_linux conf m Hm Hl).
  - now rewrite (applyOverrides_no_master conf m Hm).
Qed.

(** Applying the same overrides to the merged model changes nothing. *)
Lemma applyOverrides_idempotent (conf : GenConf) (m m' : Model) :
  outcome (applyOverrides conf m) = Done m' ->
  applyOverrides conf m' = ([], Done m').
Proof.
  destruct (api.Properties.MasterProfile (Props m)) as [mp|] eqn:Hm.
  - destruct (api.Properties.LinuxProfile (Props m)) as [lp|] eqn:Hl.
    + rewrite (applyOverrides_present conf m Hm Hl).
      unfold outcome, snd. intros H. injection H as <-. reflexivity.
    + now rewrite (applyOverrides_no_linux conf m Hm Hl).
  - now rewrite (applyOverrides_no_master conf m Hm).
Qed.

(** The last overrides win over earlier ones. *)
Lemma applyOverrides_last_wins (c1 c2 : GenConf) (m m1 : Model) :
  outcome (applyOverrides c1 m) = Done m1 ->
  applyOverrides c2 m1 = applyOverrides c2 m.
Proof.
  destruct (api.Properties.MasterProfile (Props m)) as [mp|] eqn:Hm.
  - destruct (api.Properties.LinuxProfile (Props m)) as [lp|] eqn:Hl.
    + rewrite (applyOverrides_present c1 m Hm Hl).
      unfold outcome, snd. intros H. injection H as <-.
      now rewrite (applyOverrides_present c2 m Hm Hl).
    + now rewrite (applyOverrides_no_linux c1 m Hm Hl).
  - now rewrite (applyOverrides_no_master c1 m Hm).
Qed.

(** C6.  The override merge, for every model and every overrides: on a
    model with a managed master profile and a linux profile it returns the
    model with the identity profile, the master DNS prefix and the SSH key
    list replaced by the overrides, and merging again returns the same
    model; on a model without a managed master profile, or without a linux
    profile, it panics and returns no model at all. *)
Theorem override_merge_replaces_or_panics (conf : GenConf) (m : Model) :
  match api.Properties.MasterProfile (Props m),
        api.Properties.LinuxProfile (Props m) with
  | Some mp, Some lp =>
      applyOverrides conf m = ([], Done (merged conf m mp lp)) /\
      applyOverrides conf (merged conf m mp lp)
      = ([], Done (merged conf m mp lp))
  | _, _ => applyOverrides conf m = ([], Panic)
  end.
Proof.
  destruct (api.Properties.MasterProfile (Props m)) as [mp|] eqn:Hm.
  - destruct (api.Properties.LinuxProfile (Props m)) as [lp|] eqn:Hl.
    + split; [now apply applyOverrides_present|].
      apply applyOverrides_idempotent with (m := m).
      now rewrite (applyOverrides_present conf m Hm Hl).
    + now apply applyOverrides_no_linux with (mp := mp).
  - now apply applyOverrides_no_master.
Qed.

(** The merge on the hosted sample: a panic, no model. *)
Example override_merge_on_hosted_model :
  applyOverrides (Sample.conf "hosted.json") (mkModel "vlabs" Sample.hostedProps)
  = ([], Panic).
Proof. reflexivity. Qed.

(** The merge on the managed sample. *)
Example override_merge_on_managed_model :
  outcome (applyOverrides (Sample.conf "cluster.json")
             (mkModel "vlabs" Sample.managedProps))
  = Done (mkModel "vlabs"
            (api.Properties.mk
               (Some (api.ServicePrincipalProfile.mk "id" "secret" []))
               (Some (api.MasterProfile.mk "mycluster" [("count", "1")]))
               None
               (Some (api.LinuxProfile.mk
                        (api.SSH.mk [api.PublicKey.mk "ssh-rsa CLI"])
                        [("adminUsername", "azureuser")]))
               None [])).
Proof. reflexivity. Qed.

(** C7.  The override merge does have a failure mode: when the cluster
    definition is read and unmarshalled into a model without a managed
    master profile, [NewGenerator] panics in the merge, after
    [json.Unmarshal] and before the model is marshalled again. *)
Theorem override_merge_panics_without_master_profile
  (env : Env) (conf : GenConf) (data : list byte) (model : Model) :
  fs env (ApiConfPath conf) = Regular data ->
  json_Unmarshal env data = Val model ->
  api.Properties.MasterProfile (Props model) = None ->
  NewGenerator env conf
  = ([EvOpen (ApiConfPath conf); EvReadAll (ApiConfPath conf);
      EvUnmarshal data; EvClose (ApiConfPath conf)],
     Panic).
Proof.
  intros Hfs Hu Hm. unfold NewGenerator, os_Open, ioutil_ReadAll.
  rewrite Hfs. cbv iota. rewrite Hfs. cbv iota.
  rewrite !bind_tell, Hu, (applyOverrides_no_master conf model Hm).
  reflexivity.
Qed.

(** The hosted cluster definition of the sample disk. *)
Lemma override_merge_panics_without_master_profile_witness :
  NewGenerator Sample.world (Sample.conf "hosted.json")
  = ([EvOpen "hosted.json"; EvReadAll "hosted.json";
      EvUnmarshal (list_byte_of_string "hosted"); EvClose "hosted.json"],
     Panic).
Proof.
  exact (@override_merge_panics_without_master_profile Sample.world
           (Sample.conf "hosted.json") (list_byte_of_string "hosted")
           (mkModel "vlabs" Sample.hostedProps) eq_refl eq_refl eq_refl).
Defined.

(** The managed cluster definition loads: the merge, the marshalling, the
    cleanup and the deserialization all happen. *)
Example NewGenerator_on_managed_model :
  exists gen,
    NewGenerator Sample.world (Sample.conf "cluster.json")
    = ([EvOpen "cluster.json"; EvReadAll "cluster.json";
        EvUnmarshal (list_byte_of_string "managed"); EvMarshal;
        EvDeserialize (list_byte_of_string "{}"); EvClose "cluster.json"],
       Done (Val gen)).
Proof. eexists. vm_compute. reflexivity. Qed.

(* ================================================================== *)
(** ** Further facts: the cleanup *)

Section CleanupLength.
Import GoStrings.

Lemma length_concat_pieces (sep : string) (pieces : list string) :
  pieces <> [] ->
  String.length (String.concat sep pieces)
  = String.length (String.concat "" pieces)
    + String.length sep * (List.length pieces - 1).
Proof.
  induction pieces as [|p ps IH]; [congruence|]. intros _.
  destruct ps as [|q ps].
  - simpl. lia.
  - assert (N : q :: ps <> []) by discriminate.
    rewrite (GoStringsFacts.concat_cons sep p N).
    rewrite (GoStringsFacts.concat_cons "" p N).
    rewrite !GoStringsFacts.length_append, (IH N).
    change (String.length "") with 0.
    change (List.length (p :: q :: ps)) with (S (List.length (q :: ps))).
    generalize (String.length (String.concat "" (q :: ps))).
    generalize (String.length sep). generalize (String.length p).
    change (List.length (q :: ps)) with (S (List.length ps)).
    intros; nia.
Qed.

Lemma occurs_concat_two (sep p : string) (ps : list string) :
  ps <> [] -> occurs sep (String.concat sep (p :: ps)).
Proof.
  intros H. rewrite GoStringsFacts.concat_cons by assumption.
  now exists p, (String.concat sep ps).
Qed.

End CleanupLength.

(** X1.  The cleanup shortens its input by twelve bytes for each
    occurrence it removes; it removes none, and returns its input
    unchanged, exactly when the pattern does not occur. *)
Theorem cleanup_changes_iff_pattern_occurs (s : string) :
  exists n,
    String.length s = String.length (cleanup s) + 12 * n /\
    (n = 0 <-> ~ GoStrings.occurs emptySubnet s) /\
    (cleanup s = s <-> ~ GoStrings.occurs emptySubnet s).
Proof.
  destruct (cleanup_deletes_only_the_pattern s)
    as (pieces & Hne & Hfree & Hs & Hc).
  exists (List.length pieces - 1).
  assert (L : String.length s
              = String.length (cleanup s) + 12 * (List.length pieces - 1)).
  { rewrite Hs at 1. rewrite Hc.
    now rewrite (length_concat_pieces emptySubnet Hne). }
  assert (Z : List.length pieces - 1 = 0 <-> ~ GoStrings.occurs emptySubnet s).
  { destruct pieces as [|p [|q ps]]; [congruence| |].
    - split; [intros _|reflexivity]. rewrite Hs. simpl.
      exact (Forall_inv Hfree).
    - split; [discriminate|]. intros N. exfalso. apply N. rewrite Hs.
      apply occurs_concat_two. discriminate. }
  split; [exact L|]. split; [exact Z|].
  split.
  - intros E. apply Z. rewrite E in L. lia.
  - intros N. now apply GoStringsFacts.ReplaceAll_absent.
Qed.

(** X2.  The cleanup is a single pass and not idempotent: when an
    occurrence of the pattern sits inside another one, split at any inner
    position, removing it leaves the outer pattern whole, and a second
    pass would remove that one too. *)
Theorem cleanup_can_leave_the_pattern (n : nat) :
  0 < n < String.length emptySubnet ->
  cleanup (nested_pattern n) = emptySubnet /\
  cleanup (cleanup (nested_pattern n)) = "" /\
  GoStrings.occurs emptySubnet (cleanup (nested_pattern n)).
Proof.
  intros [H0 Hn].
  assert (E : cleanup (nested_pattern n) = emptySubnet).
  { change (String.length emptySubnet) with 12 in Hn.
    do 12 (destruct n as [|n]; [try lia; vm_compute; reflexivity|]). lia. }
  rewrite E. split; [reflexivity|]. split; [vm_compute; reflexivity|].
  exists "", "". vm_compute. reflexivity.
Qed.

(** The pattern split after its fourth byte. *)
Lemma cleanup_can_leave_the_pattern_witness :
  cleanup (nested_pattern 4) = emptySubnet.
Proof.
  refine (proj1 (@cleanup_can_leave_the_pattern 4 _)).
  vm_compute. split; repeat constructor.
Defined.

(* ================================================================== *)
(** ** Further facts: validate and its arguments *)

Section ValidateArguments.
Variable env : Env.

Lemma validate_translated (gc : generateCmd) (cmd : option Command)
  (args : list string) (loc : option Locale) :
  LoadTranslations env = (loc, None) ->
  apimodelPath gc <> "" ->
  validate env gc cmd args
  = (EvLoadTranslations :: trace (validatef env (set_locale loc gc)),
     outcome (validatef env (set_locale loc gc))).
Proof.
  intros Hl Hp. unfold validate. rewrite bind_tell, Hl.
  cbn [apimodelPath set_locale]. apply String.eqb_neq in Hp. now rewrite Hp.
Qed.

End ValidateArguments.

(** X3.  When the api-model path is already set (by the flag), [validate]
    ignores the positional arguments altogether, however many there are,
    and never prints the usage: it behaves as with no argument and no
    command. *)
Theorem validate_flag_overrides_arguments
  (env : Env) (gc : generateCmd) (cmd : option Command) (args : list string) :
  apimodelPath gc <> "" ->
  validate env gc cmd args = validate env gc None [].
Proof.
  intros Hp. unfold validate. rewrite !bind_tell.
  destruct (LoadTranslations env) as [loc [e|]]; [reflexivity|].
  cbn [apimodelPath set_locale]. apply String.eqb_neq in Hp. now rewrite Hp.
Qed.

(** Three surplus arguments beside the flag change nothing. *)
Lemma validate_flag_overrides_arguments_witness :
  validate Sample.world (Sample.loaded Sample.managedProps "" "" "")
    (Some tt) ["a"; "b"; "c"]
  = validate Sample.world (Sample.loaded Sample.managedProps "" "" "")
      None [].
Proof.
  apply validate_flag_overrides_arguments. vm_compute. discriminate.
Defined.

(** X4.  Once the translations are loaded, a single non-empty positional
    argument stands for the api-model flag: validating with the argument
    is validating with the flag set to it. *)
Theorem validate_argument_stands_for_flag
  (env : Env) (gc : generateCmd) (cmd cmd' : option Command)
  (a : string) (args : list string) :
  snd (LoadTranslations env) = None ->
  apimodelPath gc = "" ->
  a <> "" ->
  validate env gc cmd [a] = validate env (set_apimodelPath a gc) cmd' args.
Proof.
  intros Hl Hp Ha. unfold validate. rewrite !bind_tell.
  destruct (LoadTranslations env) as [loc err]. cbn [snd] in Hl. subst err.
  cbn [apimodelPath set_locale set_apimodelPath]. rewrite Hp.
  apply String.eqb_neq in Ha. rewrite Ha. cbn [String.eqb].
  reflexivity.
Qed.

(** [generate cluster.json] and [generate --api-model cluster.json]. *)
Lemma validate_argument_stands_for_flag_witness :
  validate Sample.world (flagCmd (Sample.flags "" "out")) (Some tt)
    ["cluster.json"]
  = validate Sample.world (flagCmd (Sample.flags "cluster.json" "out"))
      (Some tt) [].
Proof.
  apply (@validate_argument_stands_for_flag Sample.world
           (flagCmd (Sample.flags "" "out")) (Some tt) (Some tt)
           "cluster.json" []); [reflexivity | reflexivity |].
  vm_compute. discriminate.
Defined.

(** X5.  When the translations fail to load, or when no api-model path is
    set and the positional arguments are not exactly one, [validate]
    returns an error after the call of [i18n.LoadTranslations] alone,
    followed only by [cmd.Usage] when the translations loaded and the
    command is not nil: the api model is never looked up and no CA file is
    read, and the command has only its locale assigned. *)
Theorem validate_fails_before_the_model_is_looked_up
  (env : Env) (gc : generateCmd) (cmd : option Command) (args : list string) :
  snd (LoadTranslations env) <> None
  \/ (apimodelPath gc = "" /\ List.length args <> 1) ->
  exists e,
    validate env gc cmd args
    = (EvLoadTranslations
         :: match snd (LoadTranslations env), cmd with
            | None, Some _ => [EvUsage]
            | _, _ => []
            end,
       Done (set_locale (fst (LoadTranslations env)) gc, Some e)).
Proof.
  intros H. unfold validate. rewrite bind_tell.
  destruct (LoadTranslations env) as [loc [e|]]; cbn [fst snd] in *.
  - eexists. reflexivity.
  - destruct H as [H | [Hp Hn]]; [now elim H|].
    cbn [apimodelPath set_locale]. rewrite Hp. cbn [String.eqb].
    destruct args as [|a [|b args]].
    + destruct cmd; eexists; reflexivity.
    + now elim Hn.
    + destruct cmd; eexists; reflexivity.
Qed.

(** [generate a b] without the flag. *)
Lemma validate_fails_before_the_model_is_looked_up_witness :
  validate Sample.world (flagCmd (Sample.flags "" "")) (Some tt) ["a"; "b"]
  = ([EvLoadTranslations; EvUsage],
     Done (set_locale (Some "en_US") (flagCmd (Sample.flags "" "")),
           Some (errors_New "too many arguments were provided to 'generate'"))).
Proof.
  destruct (@validate_fails_before_the_model_is_looked_up Sample.world
              (flagCmd (Sample.flags "" "")) (Some tt) ["a"; "b"])
    as (e & H).
  - right. split; [reflexivity | discriminate].
  - rewrite H. vm_compute in H. injection H as <-. reflexivity.
Defined.

(* ================================================================== *)
(** ** Further facts: what validatef writes *)

Lemma Clean_not_empty (p : string) : GoPath.Clean p <> "".
Proof.
  destruct p as [|c p]; [discriminate|]. unfold GoPath.Clean.
  destruct (Ascii.eqb c GoPath.slash); [discriminate|].
  match goal with
  | |- (if String.eqb ?b "" then _ else _) <> _ =>
      destruct (String.eqb b "") eqn:E
  end; [discriminate | now apply String.eqb_neq].
Qed.

Lemma Join_root_not_empty (p : string) : GoPath.Join [outputRoot; p] <> "".
Proof. cbn [GoPath.Join outputRoot String.eqb Ascii.eqb Bool.eqb]. apply Clean_not_empty. Qed.

Lemma resolve_explicit (gc : generateCmd) :
  outputDirectory gc <> "" -> resolveOutputDirectory gc = ([], Done gc).
Proof.
  intros H. unfold resolveOutputDirectory.
  apply String.eqb_neq in H. now rewrite H.
Qed.

Lemma resolve_not_empty (gc gc1 : generateCmd) :
  outcome (resolveOutputDirectory gc) = Done gc1 ->
  outputDirectory gc1 <> "".
Proof.
  unfold resolveOutputDirectory.
  destruct (String.eqb (outputDirectory gc) "") eqn:E.
  - destruct (containerService gc) as [cs|];
      [rewrite bind_deref_Some | discriminate].
    destruct (api.ContainerService.Properties cs) as [props|];
      [rewrite bind_deref_Some | discriminate].
    destruct (api.Properties.MasterProfile props) as [mp|].
    + unfold outcome, ret, snd. intros H. injection H as <-.
      apply Join_root_not_empty.
    + destruct (api.Properties.HostedMasterProfile props) as [hp|];
        [rewrite bind_deref_Some | discriminate].
      unfold outcome, ret, snd. intros H. injection H as <-.
      apply Join_root_not_empty.
  - unfold outcome, ret, snd. intros H. injection H as <-.
    now apply String.eqb_neq.
Qed.

Lemma same_model_refl (x : option api.ContainerService.t) :
  same_model_but_certificate x x.
Proof.
  destruct x as [cs|]; [|exact I]. split; [reflexivity|].
  destruct (api.ContainerService.Properties cs); [|exact I].
  now repeat split.
Qed.

(** X6.  Whenever [validatef] returns, with or without an error, it has
    written nothing but the output directory, and that only when none was
    given, and the certificate profile of the model: the paths, the flags,
    the api version, the locale and every other part of the model are as
    before. *)
Theorem validatef_writes_directory_and_certificate_only
  (env : Env) (gc gc' : generateCmd) (r : option error) :
  outcome (validatef env gc) = Done (gc', r) ->
  apimodelPath gc' = apimodelPath gc /\
  caCertificatePath gc' = caCertificatePath gc /\
  caPrivateKeyPath gc' = caPrivateKeyPath gc /\
  classicMode gc' = classicMode gc /\
  noPrettyPrint gc' = noPrettyPrint gc /\
  parametersOnly gc' = parametersOnly gc /\
  apiVersion gc' = apiVersion gc /\
  locale gc' = locale gc /\
  (outputDirectory gc <> "" -> outputDirectory gc' = outputDirectory gc) /\
  same_model_but_certificate (containerService gc) (containerService gc').
Proof.
  intros H.
  destruct (validatef_cases env gc H)
    as [(_ & -> & _) | (_ & gc1 & Hr & Hca)].
  - repeat split; auto using same_model_refl.
  - assert (Hd : outputDirectory gc <> "" ->
                 outputDirectory gc1 = outputDirectory gc).
    { intros N. rewrite (resolve_explicit gc N) in Hr.
      unfold outcome, snd in Hr. now injection Hr as <-. }
    destruct (resolve_outcome _ Hr) as [_ E1].
    pose proof (consumeCA_outputDirectory env gc1 Hca) as Ho.
    pose proof (consumeCA_cases env gc1) as C. rewrite Hca in C.
    assert (K : gc' = gc1 \/
                exists cs prop cp,
                  containerService gc1 = Some cs /\
                  api.ContainerService.Properties cs = Some prop /\
                  gc' = set_containerService
                          (Some (api.ContainerService.set_Properties
                                   (Some (api.Properties.set_CertificateProfile
                                            (Some cp) prop)) cs)) gc1).
    { destruct r as [e|].
      - left. now destruct C.
      - destruct C as [[-> _] | (cb & kb & cs & prop & _ & _ & Hcs & Hp & ->)];
          [now left | right].
        now exists cs, prop,
          (withCA (api.Properties.CertificateProfile prop) cb kb). }
    destruct K as [-> | (cs & prop & cp & Hcs & Hp & ->)].
    + destruct (resolve_keeps gc Hr) as (_ & _ & _ & Ecs).
      repeat split; try (rewrite E1; reflexivity); auto.
      rewrite Ecs. apply same_model_refl.
    + destruct (resolve_keeps gc Hr) as (_ & _ & _ & Ecs).
      repeat split; try (rewrite E1; reflexivity); auto.
      cbn [containerService set_containerService].
      rewrite <- Ecs, Hcs. cbn. rewrite Hp. now repeat split.
Qed.

(** The sample model gets its certificate profile; its master profile and
    linux profile stay. *)
Lemma validatef_writes_directory_and_certificate_only_witness :
  exists gc',
    outcome (validatef Sample.world
               (Sample.loaded Sample.managedProps "out" "ca.crt" "ca.key"))
    = Done (gc', None) /\
    outputDirectory gc' = "out" /\
    same_model_but_certificate
      (Some (api.ContainerService.mk (Some Sample.managedProps) []))
      (containerService gc').
Proof.
  eexists. split; [vm_compute; reflexivity|].
  pose proof (@validatef_writes_directory_and_certificate_only Sample.world
                (Sample.loaded Sample.managedProps "out" "ca.crt" "ca.key")
                _ None ltac:(vm_compute; reflexivity)) as H.
  split; [reflexivity|].
  exact (proj2 (proj2 (proj2 (proj2 (proj2 (proj2 (proj2 (proj2 (proj2 H))))))))).
Defined.

(** X7.  After [validatef] has returned without an error the output
    directory is never empty, whether it was given or derived, even from
    an empty DNS prefix. *)
Theorem validated_output_directory_not_empty
  (env : Env) (gc gc' : generateCmd) :
  outcome (validatef env gc) = Done (gc', None) ->
  outputDirectory gc' <> "".
Proof.
  intros H.
  destruct (validatef_cases env gc H)
    as [(_ & _ & E) | (_ & gc1 & Hr & Hca)]; [discriminate|].
  rewrite (consumeCA_outputDirectory env gc1 Hca).
  exact (resolve_not_empty gc Hr).
Qed.

(** The hosted profile with the empty prefix. *)
Lemma validated_output_directory_not_empty_witness :
  exists gc',
    outcome (validatef Sample.world
               (Sample.loaded Sample.emptyPrefixProps "" "" ""))
    = Done (gc', None) /\
    outputDirectory gc' <> "".
Proof.
  eexists. split; [vm_compute; reflexivity|].
  apply (@validated_output_directory_not_empty Sample.world
           (Sample.loaded Sample.emptyPrefixProps "" "" "")).
  vm_compute. reflexivity.
Defined.

(** The CA step writes the model only. *)
Lemma consumeCA_keeps (env : Env) (gc gc' : generateCmd) (r : option error) :
  outcome (consumeCA env gc) = Done (gc', r) ->
  exists v, gc' = set_containerService v gc.
Proof.
  intros H. pose proof (consumeCA_cases env gc) as C. rewrite H in C.
  assert (E : gc = set_containerService (containerService gc) gc)
    by now destruct gc.
  destruct r as [e|].
  - destruct C as [-> _]. now exists (containerService gc).
  - destruct C as [[-> _] | (cb & kb & cs & prop & _ & _ & _ & _ & ->)].
    + now exists (containerService gc).
    + eexists. reflexivity.
Qed.

(** What a returning [validatef] keeps of the command, in short. *)
Lemma validatef_keeps (env : Env) (gc gc' : generateCmd) (r : option error) :
  outcome (validatef env gc) = Done (gc', r) ->
  apimodelPath gc' = apimodelPath gc /\
  apiVersion gc' = apiVersion gc /\
  parametersOnly gc' = parametersOnly gc /\
  (outputDirectory gc <> "" -> outputDirectory gc' = outputDirectory gc) /\
  (r = None -> outputDirectory gc' <> "").
Proof.
  intros H.
  destruct (validatef_cases env gc H)
    as [(_ & -> & ->) | (_ & gc1 & Hr & Hca)].
  - repeat split; auto. discriminate.
  - destruct (consumeCA_keeps env gc1 Hca) as [v ->].
    destruct (resolve_outcome _ Hr) as [_ E1].
    cbn [apimodelPath apiVersion parametersOnly outputDirectory
         set_containerService].
    split; [rewrite E1; reflexivity|]. split; [rewrite E1; reflexivity|].
    split; [rewrite E1; reflexivity|]. split.
    + intros N. rewrite (resolve_explicit gc N) in Hr.
      unfold outcome, snd in Hr. now injection Hr as <-.
    + intros _. exact (resolve_not_empty gc Hr).
Qed.

Lemma consumeCA_idempotent (env : Env) (gc gc' : generateCmd) :
  outcome (consumeCA env gc) = Done (gc', None) ->
  outcome (consumeCA env gc') = Done (gc', None).
Proof.
  intros H.
  destruct (String.eqb (caCertificatePath gc) "") eqn:Ec;
    destruct (String.eqb (caPrivateKeyPath gc) "") eqn:Ek.
  - assert (gc' = gc) as ->; [|exact H].
    unfold consumeCA in H. rewrite Ec, Ek in H.
    unfold outcome, ret, snd in H. cbn [negb andb orb] in H.
    now injection H as <-.
  - apply String.eqb_eq in Ec. apply String.eqb_neq in Ek.
    rewrite (@consumeCA_unpaired env gc) in H by (right; now split).
    discriminate.
  - apply String.eqb_neq in Ec. apply String.eqb_eq in Ek.
    rewrite (@consumeCA_unpaired env gc) in H by (left; now split).
    discriminate.
  - apply String.eqb_neq in Ec, Ek.
    destruct (ioutil_ReadFile (fs env) (caCertificatePath gc))
      as [cb|e1] eqn:R1.
    2:{ rewrite (@consumeCA_cert_fails env gc Ec Ek e1 R1) in H.
        discriminate. }
    destruct (ioutil_ReadFile (fs env) (caPrivateKeyPath gc))
      as [kb|e2] eqn:R2.
    2:{ rewrite (@consumeCA_key_fails env gc Ec Ek cb e2 R1 R2) in H.
        discriminate. }
    destruct (containerService gc) as [cs|] eqn:Hcs.
    2:{ exfalso. unfold consumeCA in H.
        apply String.eqb_neq in Ec, Ek. rewrite Ec, Ek in H.
        cbn [negb andb orb] in H.
        rewrite bind_tell, R1, bind_tell, R2, Hcs in H. discriminate. }
    destruct (api.ContainerService.Properties cs) as [prop|] eqn:Hp.
    2:{ exfalso. unfold consumeCA in H.
        apply String.eqb_neq in Ec, Ek. rewrite Ec, Ek in H.
        cbn [negb andb orb] in H.
        rewrite bind_tell, R1, bind_tell, R2, Hcs, bind_deref_Some, Hp in H.
        discriminate. }
    rewrite (@consumeCA_populates env gc Ec Ek cb kb cs prop R1 R2 Hcs Hp)
      in H.
    unfold outcome, snd in H. injection H as <-.
    set (prop' := api.Properties.set_CertificateProfile
                    (Some (withCA (api.Properties.CertificateProfile prop)
                             cb kb)) prop).
    set (cs' := api.ContainerService.set_Properties (Some prop') cs).
    rewrite (@consumeCA_populates env (set_containerService (Some cs') gc)
               Ec Ek cb kb cs' prop' R1 R2 eq_refl eq_refl).
    reflexivity.
Qed.

(** X8.  Validation is idempotent: run again on the command a successful
    [validatef] returned, in the same world, it succeeds again and returns
    the same command. *)
Theorem validatef_idempotent (env : Env) (gc gc' : generateCmd) :
  outcome (validatef env gc) = Done (gc', None) ->
  outcome (validatef env gc') = Done (gc', None).
Proof.
  intros H.
  destruct (validatef_keeps env gc H) as (Ep & _ & _ & _ & Hne).
  specialize (Hne eq_refl).
  destruct (validatef_cases env gc H)
    as [(_ & _ & E) | (Hp & gc1 & Hr & Hca)]; [discriminate|].
  assert (Hr' : outcome (resolveOutputDirectory gc') = Done gc')
    by now rewrite (resolve_explicit gc' Hne).
  rewrite <- Ep in Hp.
  rewrite (validatef_present env gc' Hp Hr'). unfold outcome at 1. cbn [snd].
  exact (consumeCA_idempotent env gc1 Hca).
Qed.

(** Validating the sample command with its CA pair twice. *)
Lemma validatef_idempotent_witness :
  exists gc',
    outcome (validatef Sample.world
               (Sample.loaded Sample.managedProps "" "ca.crt" "ca.key"))
    = Done (gc', None) /\
    outcome (validatef Sample.world gc') = Done (gc', None).
Proof.
  eexists. split; [vm_compute; reflexivity|].
  apply (@validatef_idempotent Sample.world
           (Sample.loaded Sample.managedProps "" "ca.crt" "ca.key")).
  vm_compute. reflexivity.
Defined.

(* ================================================================== *)
(** ** Further facts: the command line without a model *)

(** Without a loaded model [validatef] succeeds exactly when the cluster
    definition exists, the output directory is given and no CA path is
    set; it then changes nothing. *)
Lemma validatef_unloaded_succeeds_iff (env : Env) (gc gc' : generateCmd) :
  containerService gc = None ->
  outcome (validatef env gc) = Done (gc', None)
  <-> (fs env (apimodelPath gc) <> Absent /\
       outputDirectory gc <> "" /\
       caCertificatePath gc = "" /\
       caPrivateKeyPath gc = "" /\
       gc' = gc).
Proof.
  intros Hcs. split.
  - intros H.
    destruct (validatef_cases env gc H)
      as [(_ & _ & E) | (Hp & gc1 & Hr & Hca)]; [discriminate|].
    assert (Hd : outputDirectory gc <> "").
    { intros N. unfold resolveOutputDirectory in Hr.
      rewrite N, Hcs in Hr. discriminate. }
    rewrite (resolve_explicit gc Hd) in Hr.
    unfold outcome, snd in Hr. injection Hr as <-.
    pose proof (consumeCA_cases env gc) as C. rewrite Hca in C.
    destruct C as [(-> & Ec & Ek) | (cb & kb & cs & prop & _ & _ & N & _)];
      [now repeat split | congruence].
  - intros (Hp & Hd & Ec & Ek & ->).
    assert (Hr : outcome (resolveOutputDirectory gc) = Done gc)
      by now rewrite (resolve_explicit gc Hd).
    rewrite (validatef_present env gc Hp Hr). unfold outcome at 1. cbn [snd].
    unfold consumeCA. now rewrite Ec, Ek.
Qed.

(** X9.  In the flag-driven path, where no model is ever loaded,
    validation succeeds exactly for the invocations whose translations
    load, whose api model is named by the flag or by a single positional
    argument and exists on disk, that give the output directory, and that
    give no CA path; the validated command is then the flags with the
    locale and the path filled in, its model still nil. *)
Theorem cli_validation_succeeds_iff
  (env : Env) (f : Flags) (args : list string) (gc' : generateCmd) :
  outcome (validate env (flagCmd f) (Some tt) args) = Done (gc', None)
  <-> exists loc path,
        LoadTranslations env = (loc, None) /\
        ((flag_api_model f = path /\ path <> "")
         \/ (flag_api_model f = "" /\ args = [path])) /\
        fs env path <> Absent /\
        flag_output_directory f <> "" /\
        flag_ca_certificate_path f = "" /\
        flag_ca_private_key_path f = "" /\
        gc' = set_apimodelPath path (set_locale loc (flagCmd f)).
Proof.
  unfold validate. rewrite bind_tell. unfold outcome at 1. cbn [snd].
  destruct (LoadTranslations env) as [loc [e|]].
  - split; [discriminate|].
    intros (loc' & path & N & _). discriminate.
  - cbn [apimodelPath set_locale flagCmd].
    destruct (String.eqb (flag_api_model f) "") eqn:Ef.
    + apply String.eqb_eq in Ef.
      destruct args as [|a [|b args]].
      * split; [discriminate|].
        intros (loc' & path & _ & [[E N] | [_ N]] & _); [|discriminate].
        congruence.
      * rewrite validatef_unloaded_succeeds_iff by reflexivity.
        cbn [apimodelPath outputDirectory caCertificatePath caPrivateKeyPath
             set_apimodelPath].
        split.
        -- intros (Hp & Hd & Ec & Ek & ->).
           exists loc, a. repeat split; auto.
        -- intros (loc' & path & El & [[E N] | [_ Ea]] & Hp & Hd & Ec & Ek & ->);
             [congruence|].
           injection El as <-. injection Ea as <-.
           now repeat split.
      * split; [discriminate|].
        intros (loc' & path & _ & [[E N] | [_ N]] & _); [|discriminate].
        congruence.
    + apply String.eqb_neq in Ef.
      rewrite validatef_unloaded_succeeds_iff by reflexivity.
      cbn [apimodelPath outputDirectory caCertificatePath caPrivateKeyPath
           set_apimodelPath].
      split.
      * intros (Hp & Hd & Ec & Ek & ->).
        exists loc, (flag_api_model f). repeat split; auto.
      * intros (loc' & path & El & [[E N] | [E _]] & Hp & Hd & Ec & Ek & ->);
          [|congruence].
        injection El as <-. subst path.
        repeat split; auto.
Qed.

(** [generate --api-model cluster.json --output-directory out]. *)
Lemma cli_validation_succeeds_iff_witness :
  outcome (validate Sample.world (flagCmd (Sample.flags "cluster.json" "out"))
             (Some tt) [])
  = Done (set_apimodelPath "cluster.json"
            (set_locale (Some "en_US")
               (flagCmd (Sample.flags "cluster.json" "out"))), None).
Proof.
  apply (proj2 (@cli_validation_succeeds_iff Sample.world
                  (Sample.flags "cluster.json" "out") [] _)).
  exists (Some "en_US"), "cluster.json".
  split; [reflexivity|].
  split; [left; split; [reflexivity | discriminate]|].
  split; [vm_compute; discriminate|].
  split; [discriminate|].
  repeat split.
Defined.

(* ================================================================== *)
(** ** Further facts: logs and outcomes of composed computations *)



(** The disk calls of [validatef]: [os.Stat] on the api model, then the
    certificate file, then the key file; never more. *)
Lemma validatef_trace_shape (env : Env) (gc : generateCmd) :
  exists l,
    trace (validatef env gc) = EvStat (apimodelPath gc) :: l /\
    (l = []
     \/ l = [EvReadFile (caCertificatePath gc)]
     \/ l = [EvReadFile (caCertificatePath gc);
             EvReadFile (caPrivateKeyPath gc)]).
Proof.
  unfold validatef. rewrite bind_tell. unfold trace at 1. cbn [fst].
  destruct (os_IsNotExist (os_Stat (fs env) (apimodelPath gc)));
    [exists []; split; [reflexivity | now left]|].
  rewrite trace_bind.
  destruct (resolveOutputDirectory gc) as [t [gc1| |msg]] eqn:R.
  - destruct (resolve_inv _ R) as [-> E1].
    assert (Ec : caCertificatePath gc1 = caCertificatePath gc)
      by (rewrite E1; reflexivity).
    assert (Ek : caPrivateKeyPath gc1 = caPrivateKeyPath gc)
      by (rewrite E1; reflexivity).
    unfold trace at 1, outcome. cbn [fst snd app].
    rewrite <- Ec, <- Ek. clear.
    eexists. split; [reflexivity|].
    unfold consumeCA.
    destruct (negb (caCertificatePath gc1 =? "") && (caPrivateKeyPath gc1 =? "")
              || (caCertificatePath gc1 =? "") && negb (caPrivateKeyPath gc1 =? ""));
      [now left|].
    destruct (negb (caCertificatePath gc1 =? "")); [|now left].
    rewrite bind_tell. unfold trace at 1. cbn [fst].
    destruct (ioutil_ReadFile (fs env) (caCertificatePath gc1));
      [|right; now left].
    rewrite bind_tell. unfold trace at 1. cbn [fst].
    destruct (ioutil_ReadFile (fs env) (caPrivateKeyPath gc1));
      [|right; now right].
    right; right. f_equal. f_equal.
    destruct (containerService gc1) as [cs|]; [|reflexivity].
    rewrite bind_deref_Some.
    destruct (api.ContainerService.Properties cs); reflexivity.
  - exists []. split; [|now left].
    unfold trace at 1, outcome. cbn [fst snd]. rewrite app_nil_r.
    f_equal. unfold resolveOutputDirectory in R.
    destruct (String.eqb (outputDirectory gc) ""); [|discriminate].
    destruct (containerService gc) as [cs|];
      [rewrite bind_deref_Some in R | now injection R].
    destruct (api.ContainerService.Properties cs) as [props|];
      [rewrite bind_deref_Some in R | now injection R].
    destruct (api.Properties.MasterProfile props); [discriminate|].
    destruct (api.Properties.HostedMasterProfile props);
      [discriminate | now injection R].
  - exfalso. unfold resolveOutputDirectory in R.
    destruct (String.eqb (outputDirectory gc) ""); [|discriminate].
    destruct (containerService gc) as [cs|];
      [rewrite bind_deref_Some in R | discriminate].
    destruct (api.ContainerService.Properties cs) as [props|];
      [rewrite bind_deref_Some in R | discriminate].
    destruct (api.Properties.MasterProfile props); [discriminate|].
    destruct (api.Properties.HostedMasterProfile props); discriminate.
Qed.

Lemma validatef_never_fatal (env : Env) (gc : generateCmd) (msg : string) :
  outcome (validatef env gc) <> Fatal msg.
Proof.
  unfold validatef. rewrite bind_tell. unfold outcome at 1. cbn [snd].
  destruct (os_IsNotExist (os_Stat (fs env) (apimodelPath gc)));
    [discriminate|].
  rewrite outcome_bind.
  destruct (outcome (resolveOutputDirectory gc)) as [gc1| |m] eqn:R.
  - pose proof (consumeCA_cases env gc1) as C. intros N. now rewrite N in C.
  - discriminate.
  - exfalso. unfold resolveOutputDirectory in R.
    destruct (String.eqb (outputDirectory gc) ""); [|discriminate].
    destruct (containerService gc) as [cs|];
      [rewrite bind_deref_Some in R | discriminate].
    destruct (api.ContainerService.Properties cs) as [props|];
      [rewrite bind_deref_Some in R | discriminate].
    destruct (api.Properties.MasterProfile props); [discriminate|].
    destruct (api.Properties.HostedMasterProfile props); discriminate.
Qed.

(* ================================================================== *)
(** ** Further facts: NewGenerator *)

Lemma applyOverrides_trace (conf : GenConf) (m : Model) :
  trace (applyOverrides conf m) = [].
Proof.
  destruct (api.Properties.MasterProfile (Props m)) as [mp|] eqn:Hm.
  - destruct (api.Properties.LinuxProfile (Props m)) as [lp|] eqn:Hl.
    + now rewrite (applyOverrides_present conf m Hm Hl).
    + now rewrite (applyOverrides_no_linux conf m Hm Hl).
  - now rewrite (applyOverrides_no_master conf m Hm).
Qed.

Lemma getContService_trace (env : Env) (gc : generateCmd) (m : Model) :
  forallb (fun e => negb (is_open_or_close e))
    (trace (getContService env gc m)) = true.
Proof.
  unfold getContService. rewrite bind_tell.
  destruct (json_Marshal env m) as [contents|e]; [|reflexivity].
  rewrite bind_tell.
  now destruct (DeserializeContainerService env (locale gc) _)
    as [[cs ver] [e|]].
Qed.

(** X10.  [NewGenerator] never leaks the file: when [os.Open] fails it
    makes no other call; when it succeeds the file is closed exactly once,
    as the last call, however the function ends (a result, an error or the
    panic of the merge), and it is never opened twice. *)
Theorem NewGenerator_closes_what_it_opens (env : Env) (conf : GenConf) :
  match os_Open (fs env) (ApiConfPath conf) with
  | Fail err =>
      NewGenerator env conf = ([EvOpen (ApiConfPath conf)], Done (Fail err))
  | Val _ =>
      exists mid,
        trace (NewGenerator env conf)
        = (EvOpen (ApiConfPath conf) :: mid ++ [EvClose (ApiConfPath conf)])%list
        /\ forallb (fun e => negb (is_open_or_close e)) mid = true
  end.
Proof.
  unfold NewGenerator. rewrite bind_tell.
  assert (O : forall f, os_Open (fs env) (ApiConfPath conf) = Val f ->
                        f = ApiConfPath conf).
  { unfold os_Open. intros f.
    destruct (fs env (ApiConfPath conf)); intros H;
      try discriminate; now injection H. }
  destruct (os_Open (fs env) (ApiConfPath conf)) as [f|err]; [|reflexivity].
  rewrite (O f eq_refl). clear O f.
  unfold trace at 1. cbn [fst]. rewrite trace_defer.
  eexists. split; [reflexivity|].
  rewrite bind_tell. unfold trace at 1. cbn [fst forallb is_open_or_close negb andb].
  destruct (ioutil_ReadAll (fs env) (ApiConfPath conf)) as [data|e];
    [|reflexivity].
  rewrite bind_tell. unfold trace at 1. cbn [fst forallb is_open_or_close negb andb].
  destruct (json_Unmarshal env data) as [model|e]; [|reflexivity].
  rewrite trace_bind, applyOverrides_trace. cbn [app].
  destruct (outcome (applyOverrides conf model)) as [m| |msg];
    try reflexivity.
  rewrite trace_bind, forallb_app, getContService_trace. cbn [andb].
  now destruct (outcome (getContService env _ m)) as [[g [e|]]| |msg].
Qed.

(** Every way [NewGenerator] can end, with the calls it has made. *)
Lemma NewGenerator_cases (env : Env) (conf : GenConf) :
  let p := ApiConfPath conf in
  NewGenerator env conf
  = match fs env p with
    | Absent => ([EvOpen p], Done (Fail (PathError "open" p ENOENT)))
    | OpenFails msg =>
        ([EvOpen p], Done (Fail (PathError "open" p (Errno msg))))
    | ReadFails msg =>
        ([EvOpen p; EvReadAll p; EvClose p],
         Done (Fail (PathError "read" p (Errno msg))))
    | Regular data =>
        match json_Unmarshal env data with
        | Fail e =>
            ([EvOpen p; EvReadAll p; EvUnmarshal data; EvClose p],
             Done (Fail e))
        | Val model =>
            match api.Properties.MasterProfile (Props model),
                  api.Properties.LinuxProfile (Props model) with
            | Some mp, Some lp =>
                match json_Marshal env (merged conf model mp lp) with
                | Fail e =>
                    ([EvOpen p; EvReadAll p; EvUnmarshal data; EvMarshal;
                      EvClose p],
                     Done (Fail e))
                | Val contents =>
                    let input :=
                      list_byte_of_string
                        (cleanup (string_of_list_byte contents)) in
                    ([EvOpen p; EvReadAll p; EvUnmarshal data; EvMarshal;
                      EvDeserialize input; EvClose p],
                     match DeserializeContainerService env None input with
                     | (cs, ver, Some e) =>
                         Done (Fail (fmt_Errorf env
                                 ("error parsing the api model: "
                                  ++ Error e)))
                     | (cs, ver, None) =>
                         Done (Val (mkGenerateCmd p (OutDir conf) "" ""
                                      false false false cs ver None))
                     end)
                end
            | _, _ =>
                ([EvOpen p; EvReadAll p; EvUnmarshal data; EvClose p], Panic)
            end
        end
    end.
Proof.
  intros p. subst p. unfold NewGenerator, os_Open, ioutil_ReadAll.
  rewrite bind_tell.
  destruct (fs env (ApiConfPath conf)) as [|msg|msg|data] eqn:F;
    cbv iota; try reflexivity.
  - rewrite F. reflexivity.
  - rewrite F. cbv iota.
    destruct (json_Unmarshal env data) as [model|e]; [|reflexivity].
    destruct (api.Properties.MasterProfile (Props model)) as [mp|] eqn:Hm.
    2:{ now rewrite (applyOverrides_no_master conf model Hm). }
    destruct (api.Properties.LinuxProfile (Props model)) as [lp|] eqn:Hl.
    2:{ now rewrite (applyOverrides_no_linux conf model Hm Hl). }
    rewrite (applyOverrides_present conf model Hm Hl).
    change (@nil event, Done (merged conf model mp lp))
      with (ret (merged conf model mp lp)).
    rewrite bind_ret. unfold getContService.
    destruct (json_Marshal env (merged conf model mp lp))
      as [contents|e]; [|reflexivity].
    cbn [locale set_outputDirectory set_apimodelPath generateCmd_zero].
    now destruct (DeserializeContainerService env None
                    (list_byte_of_string
                       (cleanup (string_of_list_byte contents))))
      as [[cs ver] [e|]].
Qed.

(** X11.  Whenever [NewGenerator] returns a generator, the file was read
    and unmarshalled into a model carrying a managed master profile and a
    linux profile, the deserializer was given the cleaned marshalling of
    that model with the overrides already merged in (and a nil locale),
    and the generator has the path and the output directory of the
    configuration, no CA path, no flag set and no locale, with the
    container service and api version the deserializer returned. *)
Theorem NewGenerator_result (env : Env) (conf : GenConf) (gen : generateCmd) :
  outcome (NewGenerator env conf) = Done (Val gen) ->
  exists data model mp lp contents,
    fs env (ApiConfPath conf) = Regular data /\
    json_Unmarshal env data = Val model /\
    api.Properties.MasterProfile (Props model) = Some mp /\
    api.Properties.LinuxProfile (Props model) = Some lp /\
    json_Marshal env (merged conf model mp lp) = Val contents /\
    let input := list_byte_of_string (cleanup (string_of_list_byte contents)) in
    DeserializeContainerService env None input
    = (containerService gen, apiVersion gen, None) /\
    gen = mkGenerateCmd (ApiConfPath conf) (OutDir conf) "" "" false false
            false (containerService gen) (apiVersion gen) None /\
    trace (NewGenerator env conf)
    = [EvOpen (ApiConfPath conf); EvReadAll (ApiConfPath conf);
       EvUnmarshal data; EvMarshal; EvDeserialize input;
       EvClose (ApiConfPath conf)].
Proof.
  rewrite (NewGenerator_cases env conf). cbv zeta.
  destruct (fs env (ApiConfPath conf)) as [|msg|msg|data];
    try discriminate.
  destruct (json_Unmarshal env data) as [model|e] eqn:U; [|discriminate].
  destruct (api.Properties.MasterProfile (Props model)) as [mp|] eqn:Hm;
    [|discriminate].
  destruct (api.Properties.LinuxProfile (Props model)) as [lp|] eqn:Hl;
    [|discriminate].
  destruct (json_Marshal env (merged conf model mp lp)) as [contents|e] eqn:Ma;
    [|discriminate].
  destruct (DeserializeContainerService env None
              (list_byte_of_string (cleanup (string_of_list_byte contents))))
    as [[cs ver] [e|]] eqn:D; [discriminate|].
  unfold outcome, trace. cbn [fst snd]. intros H. injection H as <-.
  exists data, model, mp, lp, contents. now repeat split.
Qed.

(** The managed cluster definition of the sample disk. *)
Lemma NewGenerator_result_witness :
  exists gen,
    outcome (NewGenerator Sample.world (Sample.conf "cluster.json"))
    = Done (Val gen) /\
    caCertificatePath gen = "" /\ locale gen = None /\
    apimodelPath gen = "cluster.json".
Proof.
  eexists. split; [vm_compute; reflexivity|].
  destruct (@NewGenerator_result Sample.world (Sample.conf "cluster.json") _
              ltac:(vm_compute; reflexivity))
    as (data & model & mp & lp & contents & _ & _ & _ & _ & _ & _ & E & _).
  rewrite E. now repeat split.
Defined.

Lemma resolve_trace (gc : generateCmd) :
  trace (resolveOutputDirectory gc) = [].
Proof.
  unfold resolveOutputDirectory.
  destruct (String.eqb (outputDirectory gc) ""); [|reflexivity].
  destruct (containerService gc) as [cs|]; [|reflexivity].
  rewrite bind_deref_Some.
  destruct (api.ContainerService.Properties cs) as [props|]; [|reflexivity].
  rewrite bind_deref_Some.
  destruct (api.Properties.MasterProfile props); [reflexivity|].
  destruct (api.Properties.HostedMasterProfile props); reflexivity.
Qed.

Lemma resolve_never_fatal (gc : generateCmd) (msg : string) :
  outcome (resolveOutputDirectory gc) <> Fatal msg.
Proof.
  unfold resolveOutputDirectory.
  destruct (String.eqb (outputDirectory gc) ""); [|discriminate].
  destruct (containerService gc) as [cs|]; [|discriminate].
  rewrite bind_deref_Some.
  destruct (api.ContainerService.Properties cs) as [props|]; [|discriminate].
  rewrite bind_deref_Some.
  destruct (api.Properties.MasterProfile props); [discriminate|].
  destruct (api.Properties.HostedMasterProfile props); discriminate.
Qed.

Lemma validatef_panics_in_resolution (env : Env) (gc : generateCmd) :
  fs env (apimodelPath gc) <> Absent ->
  outcome (resolveOutputDirectory gc) = Panic ->
  validatef env gc = ([EvStat (apimodelPath gc)], Panic).
Proof.
  intros Hp R. rewrite <- (pair_eta (validatef env gc)).
  rewrite (validatef_resolve_panics env gc Hp R). f_equal.
  unfold validatef. rewrite (stat_present env _ Hp), bind_tell.
  unfold trace at 1. cbn [fst]. now rewrite trace_bind, resolve_trace, R.
Qed.

(** A generator [NewGenerator] returns comes from a regular file and has
    only its path, output directory, container service and api version
    set. *)
Lemma NewGenerator_returns (env : Env) (conf : GenConf) (gen : generateCmd) :
  outcome (NewGenerator env conf) = Done (Val gen) ->
  (exists data, fs env (ApiConfPath conf) = Regular data) /\
  gen = mkGenerateCmd (ApiConfPath conf) (OutDir conf) "" "" false false
          false (containerService gen) (apiVersion gen) None.
Proof.
  rewrite (NewGenerator_cases env conf). cbv zeta.
  destruct (fs env (ApiConfPath conf)) as [|msg|msg|data];
    try discriminate.
  destruct (json_Unmarshal env data) as [model|e]; [|discriminate].
  destruct (api.Properties.MasterProfile (Props model)) as [mp|];
    [|discriminate].
  destruct (api.Properties.LinuxProfile (Props model)) as [lp|];
    [|discriminate].
  destruct (json_Marshal env (merged conf model mp lp)) as [contents|e];
    [|discriminate].
  destruct (DeserializeContainerService env None
              (list_byte_of_string (cleanup (string_of_list_byte contents))))
    as [[cs ver] [e|]]; [discriminate|].
  unfold outcome. cbn [snd]. intros H. injection H as <-.
  split; [now exists data | reflexivity].
Qed.

(** X12.  A generator built by [NewGenerator] always passes the CA step of
    validation untouched: in the same world [validatef] reads no CA file
    and never returns an error; it either panics in the output-directory
    resolution or succeeds with only the output directory resolved; and
    when the configuration gives an output directory, validation succeeds
    and changes nothing. *)
Theorem NewGenerator_then_validatef
  (env : Env) (conf : GenConf) (gen : generateCmd) :
  outcome (NewGenerator env conf) = Done (Val gen) ->
  (validatef env gen = ([EvStat (ApiConfPath conf)], Panic)
   \/ exists d,
        validatef env gen
        = ([EvStat (ApiConfPath conf)],
           Done (set_outputDirectory d gen, None)))
  /\ (OutDir conf <> "" ->
      validatef env gen = ([EvStat (ApiConfPath conf)], Done (gen, None))).
Proof.
  intros H.
  destruct (NewGenerator_returns env conf H) as ((data & F) & E).
  assert (Ep : apimodelPath gen = ApiConfPath conf) by (rewrite E; reflexivity).
  assert (Ec : caCertificatePath gen = "") by (rewrite E; reflexivity).
  assert (Ek : caPrivateKeyPath gen = "") by (rewrite E; reflexivity).
  assert (Eo : outputDirectory gen = OutDir conf) by (rewrite E; reflexivity).
  assert (Hp : fs env (apimodelPath gen) <> Absent)
    by (rewrite Ep, F; discriminate).
  assert (CA : forall g, caCertificatePath g = "" -> caPrivateKeyPath g = "" ->
                         consumeCA env g = ([], Done (g, None))).
  { intros g C K. unfold consumeCA. now rewrite C, K. }
  rewrite <- Ep. split.
  - destruct (outcome (resolveOutputDirectory gen)) as [g1| |msg] eqn:R.
    + right. destruct (resolve_outcome _ R) as [_ E1].
      destruct (resolve_keeps gen R) as (_ & Ec1 & Ek1 & _).
      exists (outputDirectory g1).
      rewrite (validatef_present env gen Hp R), <- E1.
      rewrite CA; [reflexivity | congruence | congruence].
    + left. now apply validatef_panics_in_resolution.
    + now elim (resolve_never_fatal gen R).
  - intros Hd. rewrite <- Eo in Hd.
    assert (R : outcome (resolveOutputDirectory gen) = Done gen)
      by now rewrite (resolve_explicit gen Hd).
    now rewrite (validatef_present env gen Hp R), CA.
Qed.

(** The managed cluster definition, validated after loading. *)
Lemma NewGenerator_then_validatef_witness :
  exists gen,
    outcome (NewGenerator Sample.world (Sample.conf "cluster.json"))
    = Done (Val gen) /\
    validatef Sample.world gen
    = ([EvStat "cluster.json"],
       Done (set_outputDirectory "_output/docprefix" gen, None)).
Proof.
  eexists. split; [vm_compute; reflexivity|].
  destruct (proj1 (@NewGenerator_then_validatef Sample.world
                     (Sample.conf "cluster.json") _
                     ltac:(vm_compute; reflexivity)))
    as [P | [d Hd]].
  - vm_compute in P. discriminate.
  - vm_compute. reflexivity.
Defined.

(* ================================================================== *)
(** ** Further facts: the body of run, and Generate *)

Section RunBody.
Variable eng : Pipeline.Engine.
Variable gc : generateCmd.

(** X13.  Whatever [run] hands to the artifact writer was generated by the
    engine from this command: the template generator was initialised and
    the template generated; with no-pretty-print set the template and the
    parameters written are the generated ones byte for byte, otherwise
    they are the outputs of the two pretty printers, both of which
    succeeded; the rest is the container service as the engine left it,
    the certs-generated flag it returned, and the api version, output
    directory, parameters-only flag and locale of the command. *)
Theorem run_writes_what_was_generated (a : Pipeline.Artifacts) :
  In (Pipeline.CallWrite a) (fst (Pipeline.run eng gc)) ->
  exists tg cs t p c,
    Pipeline.InitializeTemplateGenerator eng (locale gc) (classicMode gc)
    = Val tg /\
    Pipeline.GenerateTemplate eng tg (containerService gc)
      (Pipeline.DefaultGeneratorCode eng) = (cs, Val (t, p, c)) /\
    (if noPrettyPrint gc
     then Pipeline.art_template a = t /\ Pipeline.art_parameters a = p
     else Pipeline.PrettyPrintArmTemplate eng t
          = Val (Pipeline.art_template a) /\
          Pipeline.BuildAzureParametersFile eng p
          = Val (Pipeline.art_parameters a)) /\
    Pipeline.art_containerService a = cs /\
    Pipeline.art_certsGenerated a = c /\
    Pipeline.art_apiVersion a = apiVersion gc /\
    Pipeline.art_outputDirectory a = outputDirectory gc /\
    Pipeline.art_parametersOnly a = parametersOnly gc /\
    Pipeline.art_locale a = locale gc.
Proof.
  unfold Pipeline.run.
  destruct (Pipeline.InitializeTemplateGenerator eng (locale gc)
              (classicMode gc)) as [tg|e] eqn:I.
  2:{ cbn. intros [N|[N|[]]]; discriminate. }
  destruct (Pipeline.GenerateTemplate eng tg (containerService gc)
              (Pipeline.DefaultGeneratorCode eng))
    as [cs [[[t p] c]|e]] eqn:G.
  2:{ cbn. intros [N|[N|[N|[]]]]; discriminate. }
  destruct (noPrettyPrint gc).
  - destruct (Pipeline.WriteTLSArtifacts eng _); cbn;
      (intros [N|[N|[N|[N|[]]]]]; try discriminate; injection N as <-;
       exists tg, cs, t, p, c; now repeat split).
  - destruct (Pipeline.PrettyPrintArmTemplate eng t) as [pt|e] eqn:P.
    2:{ cbn. intros [N|[N|[N|[N|[]]]]]; discriminate. }
    destruct (Pipeline.BuildAzureParametersFile eng p) as [bp|e] eqn:B.
    2:{ cbn. intros [N|[N|[N|[N|[N|[]]]]]]; discriminate. }
    destruct (Pipeline.WriteTLSArtifacts eng _); cbn;
      (intros [N|[N|[N|[N|[N|[N|[]]]]]]]; try discriminate; injection N as <-;
       exists tg, cs, t, p, c; now repeat split).
Qed.

Lemma run_init_fails (err : error) :
  Pipeline.InitializeTemplateGenerator eng (locale gc) (classicMode gc)
  = Fail err ->
  snd (Pipeline.run eng gc)
  = Fatal ("failed to initialize template generator: %s " ++ Error err).
Proof. intros I. unfold Pipeline.run. now rewrite I. Qed.

Lemma run_generate_fails tg cs (err : error) :
  Pipeline.InitializeTemplateGenerator eng (locale gc) (classicMode gc)
  = Val tg ->
  Pipeline.GenerateTemplate eng tg (containerService gc)
    (Pipeline.DefaultGeneratorCode eng) = (cs, Fail err) ->
  snd (Pipeline.run eng gc)
  = Fatal ("error generating template " ++ apimodelPath gc ++ ": "
           ++ Error err).
Proof. intros I G. unfold Pipeline.run. now rewrite I, G. Qed.

Lemma run_pretty_print_fails tg cs t p c (err : error) :
  Pipeline.InitializeTemplateGenerator eng (locale gc) (classicMode gc)
  = Val tg ->
  Pipeline.GenerateTemplate eng tg (containerService gc)
    (Pipeline.DefaultGeneratorCode eng) = (cs, Val (t, p, c)) ->
  noPrettyPrint gc = false ->
  Pipeline.PrettyPrintArmTemplate eng t = Fail err ->
  snd (Pipeline.run eng gc)
  = Fatal ("error pretty printing template: " ++ Error err ++ " "
           ++ Pipeline.newline).
Proof. intros I G N P. unfold Pipeline.run. now rewrite I, G, N, P. Qed.

Lemma run_build_parameters_fails tg cs t p c pt (err : error) :
  Pipeline.InitializeTemplateGenerator eng (locale gc) (classicMode gc)
  = Val tg ->
  Pipeline.GenerateTemplate eng tg (containerService gc)
    (Pipeline.DefaultGeneratorCode eng) = (cs, Val (t, p, c)) ->
  noPrettyPrint gc = false ->
  Pipeline.PrettyPrintArmTemplate eng t = Val pt ->
  Pipeline.BuildAzureParametersFile eng p = Fail err ->
  snd (Pipeline.run eng gc)
  = Fatal ("error pretty printing template parameters: " ++ Error err
           ++ " " ++ Pipeline.newline).
Proof. intros I G N P B. unfold Pipeline.run. now rewrite I, G, N, P, B. Qed.

(** However [run] ends, it has called the writer at most once, as its
    last call, and ends as the writer's answer says. *)
Lemma run_ends_with_the_writer :
  (exists why, snd (Pipeline.run eng gc) = Fatal why /\
               existsb Pipeline.is_write (fst (Pipeline.run eng gc)) = false)
  \/ (exists before a,
        fst (Pipeline.run eng gc) = (before ++ [Pipeline.CallWrite a])%list /\
        existsb Pipeline.is_write before = false /\
        snd (Pipeline.run eng gc)
        = match Pipeline.WriteTLSArtifacts eng a with
          | Some err =>
              Fatal ("error writing artifacts: " ++ Error err ++ " "
                     ++ Pipeline.newline)
          | None => Done None
          end).
Proof.
  unfold Pipeline.run.
  destruct (Pipeline.InitializeTemplateGenerator eng (locale gc)
              (classicMode gc)) as [tg|e].
  2:{ left. eexists. split; reflexivity. }
  destruct (Pipeline.GenerateTemplate eng tg (containerService gc)
              (Pipeline.DefaultGeneratorCode eng))
    as [cs [[[t p] c]|e]].
  2:{ left. eexists. split; reflexivity. }
  destruct (noPrettyPrint gc).
  - right. eexists [_; _; _], _.
    destruct (Pipeline.WriteTLSArtifacts eng _) eqn:W; cbn [fst snd app];
      rewrite W; repeat split.
  - destruct (Pipeline.PrettyPrintArmTemplate eng t) as [pt|e].
    2:{ left. eexists. split; reflexivity. }
    destruct (Pipeline.BuildAzureParametersFile eng p) as [bp|e].
    2:{ left. eexists. split; reflexivity. }
    right. eexists [_; _; _; _; _], _.
    destruct (Pipeline.WriteTLSArtifacts eng _) eqn:W; cbn [fst snd app];
      rewrite W; repeat split.
Qed.

Lemma write_call_unique (before : list Pipeline.call)
  (a b : Pipeline.Artifacts) :
  existsb Pipeline.is_write before = false ->
  In (Pipeline.CallWrite b) (before ++ [Pipeline.CallWrite a]) -> b = a.
Proof.
  intros Hb H. apply in_app_or in H. destruct H as [H|[H|[]]].
  - exfalso. assert (E : existsb Pipeline.is_write before = true).
    { apply existsb_exists. now exists (Pipeline.CallWrite b). }
    congruence.
  - now injection H.
Qed.

Lemma no_write_call (calls : list Pipeline.call) (a : Pipeline.Artifacts) :
  existsb Pipeline.is_write calls = false ->
  ~ In (Pipeline.CallWrite a) calls.
Proof.
  intros Hb H. assert (E : existsb Pipeline.is_write calls = true).
  { apply existsb_exists. now exists (Pipeline.CallWrite a). }
  congruence.
Qed.

Lemma run_returns_no_error (e : error) :
  snd (Pipeline.run eng gc) <> Done (Some e).
Proof.
  destruct run_ends_with_the_writer
    as [(why & -> & _) | (before & a & _ & _ & ->)]; [discriminate|].
  destruct (Pipeline.WriteTLSArtifacts eng a); discriminate.
Qed.

(** X14.  [run] never returns an error: it returns nil or the process
    exits through the fatal log.  It returns nil exactly when it has
    called the artifact writer and the writer succeeded; the writer is
    called at most once, and only as the last call.  An error returned by
    the template generator's initialisation, by the generation, by either
    pretty printer (when pretty printing is on) or by the writer ends the
    process through the fatal log with the message of that step. *)
Theorem run_succeeds_iff_written :
  (forall e, snd (Pipeline.run eng gc) <> Done (Some e))
  /\ (snd (Pipeline.run eng gc) = Done None
      \/ exists why, snd (Pipeline.run eng gc) = Fatal why)
  /\ (snd (Pipeline.run eng gc) = Done None
      <-> exists a, In (Pipeline.CallWrite a) (fst (Pipeline.run eng gc)) /\
                    Pipeline.WriteTLSArtifacts eng a = None)
  /\ (forall a, In (Pipeline.CallWrite a) (fst (Pipeline.run eng gc)) ->
                exists before,
                  fst (Pipeline.run eng gc)
                  = (before ++ [Pipeline.CallWrite a])%list /\
                  existsb Pipeline.is_write before = false)
  /\ (forall err,
        Pipeline.InitializeTemplateGenerator eng (locale gc) (classicMode gc)
        = Fail err ->
        snd (Pipeline.run eng gc)
        = Fatal ("failed to initialize template generator: %s "
                 ++ Error err))
  /\ (forall tg cs err,
        Pipeline.InitializeTemplateGenerator eng (locale gc) (classicMode gc)
        = Val tg ->
        Pipeline.GenerateTemplate eng tg (containerService gc)
          (Pipeline.DefaultGeneratorCode eng) = (cs, Fail err) ->
        snd (Pipeline.run eng gc)
        = Fatal ("error generating template " ++ apimodelPath gc ++ ": "
                 ++ Error err))
  /\ (forall tg cs t p c err,
        Pipeline.InitializeTemplateGenerator eng (locale gc) (classicMode gc)
        = Val tg ->
        Pipeline.GenerateTemplate eng tg (containerService gc)
          (Pipeline.DefaultGeneratorCode eng) = (cs, Val (t, p, c)) ->
        noPrettyPrint gc = false ->
        Pipeline.PrettyPrintArmTemplate eng t = Fail err ->
        snd (Pipeline.run eng gc)
        = Fatal ("error pretty printing template: " ++ Error err ++ " "
                 ++ Pipeline.newline))
  /\ (forall tg cs t p c pt err,
        Pipeline.InitializeTemplateGenerator eng (locale gc) (classicMode gc)
        = Val tg ->
        Pipeline.GenerateTemplate eng tg (containerService gc)
          (Pipeline.DefaultGeneratorCode eng) = (cs, Val (t, p, c)) ->
        noPrettyPrint gc = false ->
        Pipeline.PrettyPrintArmTemplate eng t = Val pt ->
        Pipeline.BuildAzureParametersFile eng p = Fail err ->
        snd (Pipeline.run eng gc)
        = Fatal ("error pretty printing template parameters: " ++ Error err
                 ++ " " ++ Pipeline.newline))
  /\ (forall a err,
        In (Pipeline.CallWrite a) (fst (Pipeline.run eng gc)) ->
        Pipeline.WriteTLSArtifacts eng a = Some err ->
        snd (Pipeline.run eng gc)
        = Fatal ("error writing artifacts: " ++ Error err ++ " "
                 ++ Pipeline.newline)).
Proof.
  split; [exact run_returns_no_error|].
  pose proof run_ends_with_the_writer as E.
  split; [|split; [|split; [|split; [|split; [|split; [|split]]]]]].
  - destruct E as [(why & -> & _) | (before & a & _ & _ & ->)].
    + right. now exists why.
    + destruct (Pipeline.WriteTLSArtifacts eng a) as [err|];
        [right; eexists; reflexivity | now left].
  - destruct E as [(why & Hs & Hw) | (before & a & Hc & Hb & Hs)];
      rewrite Hs.
    + split; [discriminate|]. intros (b & Hin & _).
      now elim (@no_write_call _ b Hw).
    + rewrite Hc. split.
      * intros H. exists a. split; [apply in_or_app; right; now left|].
        destruct (Pipeline.WriteTLSArtifacts eng a); [discriminate|].
        reflexivity.
      * intros (b & Hin & Hn).
        rewrite (@write_call_unique before a b Hb Hin) in Hn. now rewrite Hn.
  - intros b Hin.
    destruct E as [(why & Hs & Hw) | (before & a & Hc & Hb & Hs)].
    + now elim (@no_write_call _ b Hw).
    + rewrite Hc in Hin |- *.
      rewrite (@write_call_unique before a b Hb Hin). now exists before.
  - exact run_init_fails.
  - exact run_generate_fails.
  - exact run_pretty_print_fails.
  - exact run_build_parameters_fails.
  - intros b err Hin Hw.
    destruct E as [(why & Hs & Hn) | (before & a & Hc & Hb & Hs)].
    + now elim (@no_write_call _ b Hn).
    + rewrite Hc in Hin. rewrite (@write_call_unique before a b Hb Hin) in Hw.
      now rewrite Hs, Hw.
Qed.

End RunBody.

(** With no-pretty-print set the sample engine's payloads are written as
    they are. *)
Lemma run_writes_what_was_generated_witness :
  exists a,
    In (Pipeline.CallWrite a)
       (fst (Pipeline.run (SampleEngine.engine None)
               (SampleEngine.command true))) /\
    Pipeline.art_template a = "TEMPLATE" /\
    Pipeline.art_parameters a = "PARAMETERS" /\
    Pipeline.art_outputDirectory a = "out".
Proof.
  eexists. split; [right; right; right; left; reflexivity|].
  destruct (@run_writes_what_was_generated (SampleEngine.engine None)
              (SampleEngine.command true) _
              ltac:(right; right; right; left; reflexivity))
    as (tg & cs & t & p & c & _ & G & [Ht Hp] & _ & _ & _ & Ho & _).
  injection G as _ <- <- _. now repeat split.
Defined.

(** When the template pretty printer fails nothing is written. *)
Example run_with_failing_pretty_printer :
  Pipeline.run SampleEngine.uglyEngine (SampleEngine.command false)
  = ([Pipeline.Infoln "Generating assets into out...";
      Pipeline.CallInitialize false;
      Pipeline.CallGenerate
        (Some (api.ContainerService.mk (Some Sample.managedProps) []))
        "acsengine";
      Pipeline.CallPrettyPrint "TEMPLATE"],
     Fatal ("error pretty printing template: bad template "
            ++ Pipeline.newline)).
Proof. reflexivity. Qed.

(** With pretty printing the printers' outputs are written. *)
Example run_with_pretty_printer :
  exists a,
    Pipeline.run (SampleEngine.engine None) (SampleEngine.command false)
    = ([Pipeline.Infoln "Generating assets into out...";
        Pipeline.CallInitialize false;
        Pipeline.CallGenerate
          (Some (api.ContainerService.mk (Some Sample.managedProps) []))
          "acsengine";
        Pipeline.CallPrettyPrint "TEMPLATE";
        Pipeline.CallBuildParameters "PARAMETERS";
        Pipeline.CallWrite a],
       Done None) /\
    Pipeline.art_template a = "pretty(TEMPLATE)" /\
    Pipeline.art_parameters a = "built(PARAMETERS)".
Proof. eexists. repeat split. Qed.

Lemma run_calls_not_nil (eng : Pipeline.Engine) (gc : generateCmd) :
  fst (Pipeline.run eng gc) <> [].
Proof.
  unfold Pipeline.run.
  destruct (Pipeline.InitializeTemplateGenerator eng _ _); [|discriminate].
  destruct (Pipeline.GenerateTemplate eng _ _ _) as [cs [[[t p] c]|e]];
    [|discriminate].
  destruct (noPrettyPrint gc).
  - destruct (Pipeline.WriteTLSArtifacts eng _); discriminate.
  - destruct (Pipeline.PrettyPrintArmTemplate eng t); [|discriminate].
    destruct (Pipeline.BuildAzureParametersFile eng p); [|discriminate].
    destruct (Pipeline.WriteTLSArtifacts eng _); discriminate.
Qed.

Lemma run_never_panics (eng : Pipeline.Engine) (gc : generateCmd) :
  snd (Pipeline.run eng gc) <> Panic.
Proof.
  unfold Pipeline.run.
  destruct (Pipeline.InitializeTemplateGenerator eng _ _); [|discriminate].
  destruct (Pipeline.GenerateTemplate eng _ _ _) as [cs [[[t p] c]|e]];
    [|discriminate].
  destruct (noPrettyPrint gc).
  - destruct (Pipeline.WriteTLSArtifacts eng _); discriminate.
  - destruct (Pipeline.PrettyPrintArmTemplate eng t); [|discriminate].
    destruct (Pipeline.BuildAzureParametersFile eng p); [|discriminate].
    destruct (Pipeline.WriteTLSArtifacts eng _); discriminate.
Qed.

(** The summary [run] is the body of [run] seen from outside: with the
    engine summarised by its fatal message both end the same way. *)
Lemma run_summarises_its_body (env : Env) (eng : Pipeline.Engine)
  (gc : generateCmd) :
  outcome (run (with_engine (Pipeline.failure eng) env) gc)
  = snd (Pipeline.run eng gc).
Proof.
  unfold run. rewrite bind_tell. unfold outcome at 1.
  cbn [snd engine with_engine]. unfold Pipeline.failure.
  destruct (snd (Pipeline.run eng gc)) as [[e|]| |msg] eqn:R;
    try reflexivity.
  - now elim (@run_returns_no_error eng gc e).
  - now elim (run_never_panics eng gc).
Qed.

(** X15.  [Generate] hands a command to the engine only after [validatef]
    has returned without an error, and then the validated command; the
    only errors it returns are those of validation: a failure of the
    engine, of a pretty printer or of the writer never comes back as an
    error. *)
Theorem Generate_runs_only_validated
  (env : Env) (eng : Pipeline.Engine) (gc : generateCmd) :
  let '(t, calls, r) := Pipeline.Generate env eng gc in
  t = trace (validatef env gc) /\
  (calls <> [] <-> exists gc', outcome (validatef env gc) = Done (gc', None)) /\
  (forall gc', outcome (validatef env gc) = Done (gc', None) ->
               (calls, r) = Pipeline.run eng gc') /\
  (forall e, r = Done (Some e)
             <-> exists gc', outcome (validatef env gc) = Done (gc', Some e)).
Proof.
  unfold Pipeline.Generate.
  destruct (validatef env gc) as [t [[gc1 [e|]]| |msg]];
    unfold trace, outcome; cbn [fst snd].
  - split; [reflexivity|]. split.
    + split; [congruence|]. intros (gc' & N). discriminate.
    + split; [discriminate|]. intros e'. split.
      * intros N. injection N as <-. now exists gc1.
      * intros (gc' & N). now injection N as _ <-.
  - destruct (Pipeline.run eng gc1) as [c r] eqn:R.
    split; [reflexivity|]. split.
    + split; [intros _; now exists gc1|]. intros _.
      pose proof (run_calls_not_nil eng gc1) as N. now rewrite R in N.
    + split.
      * intros gc' N. injection N as <-. now rewrite R.
      * intros e. split.
        -- intros ->. exfalso.
           apply (@run_returns_no_error eng gc1 e).
           now rewrite R.
        -- intros (gc' & N). discriminate.
  - split; [reflexivity|]. split.
    + split; [congruence|]. intros (gc' & N). discriminate.
    + split; [discriminate|]. intros e. split; [discriminate|].
      intros (gc' & N). discriminate.
  - split; [reflexivity|]. split.
    + split; [congruence|]. intros (gc' & N). discriminate.
    + split; [discriminate|]. intros e. split; [discriminate|].
      intros (gc' & N). discriminate.
Qed.

(** The command's part in what [run] writes. *)
Lemma run_write_fields (eng : Pipeline.Engine) (gc : generateCmd)
  (a : Pipeline.Artifacts) :
  In (Pipeline.CallWrite a) (fst (Pipeline.run eng gc)) ->
  Pipeline.art_outputDirectory a = outputDirectory gc /\
  Pipeline.art_apiVersion a = apiVersion gc /\
  Pipeline.art_parametersOnly a = parametersOnly gc.
Proof.
  intros H.
  destruct (run_ends_with_the_writer eng gc)
    as [(why & _ & Hw) | (before & b & Hc & Hb & _)].
  - now elim (@no_write_call _ a Hw).
  - rewrite Hc in H. rewrite (@write_call_unique before b a Hb H).
    clear H a. revert Hc. unfold Pipeline.run.
    destruct (Pipeline.InitializeTemplateGenerator eng _ _);
      [|destruct before as [|? [|? [|? ?]]]; discriminate].
    destruct (Pipeline.GenerateTemplate eng _ _ _) as [cs [[[t p] c]|e]];
      [|destruct before as [|? [|? [|? [|? ?]]]]; discriminate].
    assert (L : forall (x y : list Pipeline.call) (u v : Pipeline.call),
                (x ++ [u])%list = (y ++ [v])%list -> u = v).
    { intros x y u v E. apply app_inj_tail in E. now destruct E. }
    destruct (noPrettyPrint gc).
    + destruct (Pipeline.WriteTLSArtifacts eng _); cbn [fst];
        intros E;
        apply (L [_; _; _]) in E; injection E as <-; now repeat split.
    + destruct (Pipeline.PrettyPrintArmTemplate eng t);
        [|destruct before as [|? [|? [|? [|? [|? ?]]]]]; discriminate].
      destruct (Pipeline.BuildAzureParametersFile eng p);
        [|destruct before as [|? [|? [|? [|? [|? [|? ?]]]]]]; discriminate].
      destruct (Pipeline.WriteTLSArtifacts eng _); cbn [fst];
        intros E;
        apply (L [_; _; _; _; _]) in E; injection E as <-;
        now repeat split.
Qed.

(** X16.  Whatever [Generate] writes goes to a directory that is not
    empty: the one given to the command, or, when none was given, the one
    validation derived; and the api version and parameters-only flag
    written are those of the command. *)
Theorem Generate_writes_into_resolved_directory
  (env : Env) (eng : Pipeline.Engine) (gc : generateCmd)
  (a : Pipeline.Artifacts) :
  In (Pipeline.CallWrite a) (snd (fst (Pipeline.Generate env eng gc))) ->
  exists gc',
    outcome (validatef env gc) = Done (gc', None) /\
    Pipeline.art_outputDirectory a = outputDirectory gc' /\
    Pipeline.art_outputDirectory a <> "" /\
    (outputDirectory gc <> "" ->
     Pipeline.art_outputDirectory a = outputDirectory gc) /\
    Pipeline.art_apiVersion a = apiVersion gc /\
    Pipeline.art_parametersOnly a = parametersOnly gc.
Proof.
  unfold Pipeline.Generate.
  destruct (validatef env gc) as [t [[gc1 [e|]]| |msg]] eqn:V;
    cbn [fst snd]; try (intros []).
  destruct (Pipeline.run eng gc1) as [c r] eqn:R. cbn [fst snd].
  intros H.
  assert (Hin : In (Pipeline.CallWrite a) (fst (Pipeline.run eng gc1)))
    by now rewrite R.
  destruct (run_write_fields eng gc1 a Hin) as (Ho & Hv & Hpo).
  assert (O : outcome (validatef env gc) = Done (gc1, None))
    by now rewrite V.
  destruct (validatef_keeps env gc O) as (_ & Ev & Epo & Ed & Hne).
  exists gc1. split; [reflexivity|]. split; [exact Ho|].
  split; [rewrite Ho; now apply Hne|].
  split; [intros N; now rewrite Ho, (Ed N)|].
  split; congruence.
Qed.

(** The sample command, validated and run. *)
Lemma Generate_writes_into_resolved_directory_witness :
  exists a,
    In (Pipeline.CallWrite a)
       (snd (fst (Pipeline.Generate Sample.world (SampleEngine.engine None)
                    (Sample.loaded Sample.managedProps "" "" "")))) /\
    Pipeline.art_outputDirectory a = "_output/docprefix" /\
    Pipeline.art_outputDirectory a <> "".
Proof.
  eexists. split; [|split].
  - vm_compute. do 5 right. left. reflexivity.
  - reflexivity.
  - destruct (@Generate_writes_into_resolved_directory Sample.world
                (SampleEngine.engine None)
                (Sample.loaded Sample.managedProps "" "" "") _
                ltac:(vm_compute; do 5 right; left; reflexivity))
      as (gc' & _ & _ & N & _).
    exact N.
Defined.

(* ================================================================== *)
(** ** Further facts: the command *)

Lemma validate_trace_no_run (env : Env) (gc : generateCmd)
  (cmd : option Command) (args : list string) :
  existsb is_run (trace (validate env gc cmd args)) = false.
Proof.
  assert (V : forall g, existsb is_run (trace (validatef env g)) = false).
  { intros g. destruct (validatef_trace_shape env g) as (l & -> & [->|[->| ->]]);
      reflexivity. }
  unfold validate. rewrite bind_tell. unfold trace at 1.
  cbn [fst existsb is_run orb].
  destruct (LoadTranslations env) as [loc [e|]]; [reflexivity|].
  destruct (String.eqb (apimodelPath (set_locale loc gc)) ""); [|apply V].
  destruct args as [|a [|b args]]; [now destruct cmd | apply V |
                                    now destruct cmd].
Qed.

(** X17.  The command never returns an error to its caller: a validation
    error ends the process through the fatal log, and [run] is entered
    exactly when [validate] has returned without an error. *)
Theorem RunE_never_returns_an_error
  (env : Env) (f : Flags) (args : list string) :
  (forall e, outcome (RunE env f args) <> Done (Some e))
  /\ (forall gc' e,
        outcome (validate env (flagCmd f) (Some tt) args) = Done (gc', Some e) ->
        outcome (RunE env f args)
        = Fatal (fmt_Sprintf0 env
                   ("error validating generateCmd: " ++ Error e)))
  /\ (existsb is_run (trace (RunE env f args)) = true
      <-> exists gc',
            outcome (validate env (flagCmd f) (Some tt) args)
            = Done (gc', None)).
Proof.
  pose proof (validate_trace_no_run env (flagCmd f) (Some tt) args) as T.
  unfold RunE. rewrite trace_bind, outcome_bind.
  destruct (validate env (flagCmd f) (Some tt) args)
    as [t [[gc1 [e|]]| |msg]]; unfold trace, outcome in *; cbn [fst snd] in *.
  - split; [discriminate|]. split.
    + intros gc' e' N. now injection N as _ <-.
    + rewrite existsb_app, T. cbn. split; [discriminate|].
      intros (gc' & N). discriminate.
  - split; [|split].
    + intros e. unfold run. rewrite bind_tell. cbn [snd].
      destruct (engine env gc1); discriminate.
    + intros gc' e N. discriminate.
    + rewrite existsb_app, T. unfold run. rewrite bind_tell. cbn.
      split; [intros _; now exists gc1 | reflexivity].
  - split; [discriminate|]. split; [intros gc' e N; discriminate|].
    rewrite app_nil_r, T. split; [discriminate|].
    intros (gc' & N). discriminate.
  - split; [discriminate|]. split; [intros gc' e N; discriminate|].
    rewrite app_nil_r, T. split; [discriminate|].
    intros (gc' & N). discriminate.
Qed.

(* ================================================================== *)
(** ** Further facts: the disk calls of validatef *)

Lemma consumeCA_both_read_trace (env : Env) (gc : generateCmd)
  (cb kb : list byte) :
  caCertificatePath gc <> "" -> caPrivateKeyPath gc <> "" ->
  ioutil_ReadFile (fs env) (caCertificatePath gc) = Val cb ->
  ioutil_ReadFile (fs env) (caPrivateKeyPath gc) = Val kb ->
  trace (consumeCA env gc)
  = [EvReadFile (caCertificatePath gc); EvReadFile (caPrivateKeyPath gc)].
Proof.
  intros Hc Hk R1 R2. unfold consumeCA.
  apply String.eqb_neq in Hc, Hk. rewrite Hc, Hk. cbn [negb andb orb].
  rewrite bind_tell, R1, bind_tell, R2. unfold trace at 1 2. cbn [fst].
  destruct (containerService gc) as [cs|]; [|reflexivity].
  rewrite bind_deref_Some.
  destruct (api.ContainerService.Properties cs); reflexivity.
Qed.

(** X18.  [validatef] calls [os.Stat] on the api model first and makes at
    most two more disk calls.  It makes none when the api model is
    missing, when the output-directory resolution panics, or when a CA
    path is empty (both absent or unpaired).  Otherwise, with both CA
    paths set, it reads the certificate file, and the key file only after
    the certificate file was read successfully. *)
Theorem validatef_disk_calls (env : Env) (gc : generateCmd) :
  exists l,
    trace (validatef env gc) = EvStat (apimodelPath gc) :: l /\
    (fs env (apimodelPath gc) = Absent -> l = []) /\
    (outcome (resolveOutputDirectory gc) = Panic -> l = []) /\
    (caCertificatePath gc = "" \/ caPrivateKeyPath gc = "" -> l = []) /\
    (fs env (apimodelPath gc) <> Absent ->
     outcome (resolveOutputDirectory gc) <> Panic ->
     caCertificatePath gc <> "" -> caPrivateKeyPath gc <> "" ->
     (forall e,
         ioutil_ReadFile (fs env) (caCertificatePath gc) = Fail e ->
         l = [EvReadFile (caCertificatePath gc)]) /\
     (forall cb,
         ioutil_ReadFile (fs env) (caCertificatePath gc) = Val cb ->
         l = [EvReadFile (caCertificatePath gc);
              EvReadFile (caPrivateKeyPath gc)])).
Proof.
  assert (D : fs env (apimodelPath gc) = Absent
              \/ fs env (apimodelPath gc) <> Absent)
    by (destruct (fs env (apimodelPath gc)); auto; right; discriminate).
  destruct D as [D|D].
  { rewrite (validatef_absent env gc D). exists []. split; [reflexivity|].
    split; [reflexivity|]. split; [reflexivity|]. split; [reflexivity|].
    intros N. now elim N. }
  destruct (outcome (resolveOutputDirectory gc)) as [gc1| |msg] eqn:R.
  2:{ rewrite (validatef_panics_in_resolution env gc D R).
      exists []. split; [reflexivity|].
      split; [reflexivity|]. split; [reflexivity|]. split; [reflexivity|].
      intros _ N. now elim N. }
  2:{ now elim (resolve_never_fatal gc R). }
  rewrite (validatef_present env gc D R). unfold trace at 1. cbn [fst].
  destruct (resolve_keeps gc R) as (_ & Ec & Ek & _). rewrite <- Ec, <- Ek.
  eexists. split; [reflexivity|].
  split; [intros N; now elim D|]. split; [discriminate|].
  destruct (String.eqb (caCertificatePath gc1) "") eqn:C;
    destruct (String.eqb (caPrivateKeyPath gc1) "") eqn:K.
  - apply String.eqb_eq in C, K. split.
    + intros _. unfold consumeCA. now rewrite C, K.
    + intros _ _ N. now elim N.
  - apply String.eqb_eq in C. apply String.eqb_neq in K. split.
    + intros _. rewrite (@consumeCA_unpaired env gc1); [reflexivity|].
      right. now split.
    + intros _ _ N. now elim N.
  - apply String.eqb_neq in C. apply String.eqb_eq in K. split.
    + intros _. rewrite (@consumeCA_unpaired env gc1); [reflexivity|].
      left. now split.
    + intros _ _ _ N. now elim N.
  - apply String.eqb_neq in C, K. split.
    + intros [N|N]; [now elim C | now elim K].
    + intros _ _ _ _. split.
      * intros e1 R1.
        now rewrite (@consumeCA_cert_fails env gc1 C K e1 R1).
      * intros cb R1.
        destruct (ioutil_ReadFile (fs env) (caPrivateKeyPath gc1))
          as [kb|e2] eqn:R2.
        -- now apply consumeCA_both_read_trace with (cb := cb) (kb := kb).
        -- now rewrite (@consumeCA_key_fails env gc1 C K cb e2 R1 R2).
Qed.

(* ================================================================== *)
(** ** Further facts: merging overrides more than once *)

(** X19.  The override merge is last-write-wins: once a merge has
    returned a model, merging other overrides into that model never panics
    and gives exactly what merging them into the original model gives;
    nothing of the first overrides survives. *)
Theorem override_merge_last_write_wins (c1 c2 : GenConf) (m m1 : Model) :
  outcome (applyOverrides c1 m) = Done m1 ->
  applyOverrides c2 m1 = applyOverrides c2 m /\
  exists m2,
    applyOverrides c2 m1 = ([], Done m2) /\
    api.Properties.ServicePrincipalProfile (Props m2) = CliProfile c2 /\
    option_map api.MasterProfile.DNSPrefix
      (api.Properties.MasterProfile (Props m2)) = Some (Name c2) /\
    option_map (fun lp => api.SSH.PublicKeys (api.LinuxProfile.SSH lp))
      (api.Properties.LinuxProfile (Props m2))
    = Some [api.PublicKey.mk (SSHKey c2)].
Proof.
  intros H. split; [exact (applyOverrides_last_wins c1 c2 m H)|].
  rewrite (applyOverrides_last_wins c1 c2 m H).
  destruct (api.Properties.MasterProfile (Props m)) as [mp|] eqn:Hm.
  - destruct (api.Properties.LinuxProfile (Props m)) as [lp|] eqn:Hl.
    + exists (merged c2 m mp lp).
      split; [exact (applyOverrides_present c2 m Hm Hl)|]. now repeat split.
    + now rewrite (applyOverrides_no_linux c1 m Hm Hl) in H.
  - now rewrite (applyOverrides_no_master c1 m Hm) in H.
Qed.

(** Merging the overrides of the sample configuration after others. *)
Lemma override_merge_last_write_wins_witness :
  applyOverrides (Sample.conf "cluster.json")
    (merged (mkGenConf "cluster.json" "" "first" "ssh-rsa FIRST" None)
       (mkModel "vlabs" Sample.managedProps)
       (api.MasterProfile.mk "docprefix" [("count", "1")]) Sample.linux)
  = applyOverrides (Sample.conf "cluster.json")
      (mkModel "vlabs" Sample.managedProps).
Proof.
  apply (proj1 (@override_merge_last_write_wins
           (mkGenConf "cluster.json" "" "first" "ssh-rsa FIRST" None)
           (Sample.conf "cluster.json")
           (mkModel "vlabs" Sample.managedProps) _ eq_refl)).
Defined.
